(** * Verification of the [wvu] graphics assignment: transformations, camera,
      linear algebra, [Model] and [ShaderProgram].

    Conventions of the embedding.

    - [GLfloat] / [float] values.  The functions whose result depends on
      rounding (camera_utils.cc, the dot and cross product of assignment.cc)
      are embedded in [Module Binary32] over IEEE binary32 numbers, with
      rounding, overflow to infinity and NaN.  The modules [Eigen],
      [CameraUtils] and [Assignment] read the same bodies in exact real
      arithmetic: they serve the functions that only copy values or return
      Eigen's random matrix, and the exact-arithmetic reading of the
      formulas.
    - [GLuint] handles are natural numbers ([N]); the code only stores them
      and compares them with zero.
    - Eigen is an external library.  The few operations the sources use are
      modelled in [Module Eigen] from Eigen's documented semantics.
    - OpenGL is an external library.  Every entry point the sources call is
      modelled as an event appended to a call trace; whatever the driver
      answers is taken from an arbitrary [Driver], a function of the calls
      made so far.  Theorems hold for every driver.
    - A nullable [std::string*] out-parameter is an [option string]:
      [None] is [nullptr], [Some s] a valid pointer whose pointee holds [s]. *)

From Stdlib Require Import Reals Lra Lia ZArith NArith List String Ascii Bool.
From Stdlib Require Import Floats.SpecFloat.
Import ListNotations.

(* ================================================================== *)
(** * Definitions                                                      *)
(* ================================================================== *)

Definition GLfloat := R.
Definition GLuint := N.
Definition GLint := Z.

(* ------------------------------------------------------------------ *)
(** ** Eigen: fixed-size vectors and matrices, [rand]-based [Random]   *)
(* ------------------------------------------------------------------ *)

Module Eigen.
Local Open Scope R_scope.

Record Vector3f := Vec3 { x3 : R; y3 : R; z3 : R }.
Record Vector4f := Vec4 { x4 : R; y4 : R; z4 : R; w4 : R }.

(** Matrices are kept as their rows; [coeff] is Eigen's [M(i, j)]. *)
Record Matrix3f := Mat3 { r3_0 : Vector3f; r3_1 : Vector3f; r3_2 : Vector3f }.
Record Matrix4f :=
  Mat4 { r4_0 : Vector4f; r4_1 : Vector4f; r4_2 : Vector4f; r4_3 : Vector4f }.

(** [Eigen::MatrixXf]: a dynamically sized matrix, kept as a list of rows. *)
Definition MatrixXf := list (list R).

Definition UnitX : Vector3f := Vec3 1 0 0.
Definition UnitY : Vector3f := Vec3 0 1 0.
Definition UnitZ : Vector3f := Vec3 0 0 1.
Definition Zero3 : Vector3f := Vec3 0 0 0.

Definition coeff4 (v : Vector4f) (i : nat) : R :=
  match i with
  | 0%nat => x4 v | 1%nat => y4 v | 2%nat => z4 v | _ => w4 v
  end.

Definition row (m : Matrix4f) (i : nat) : Vector4f :=
  match i with
  | 0%nat => r4_0 m | 1%nat => r4_1 m | 2%nat => r4_2 m | _ => r4_3 m
  end.

Definition coeff (m : Matrix4f) (i j : nat) : R := coeff4 (row m i) j.

Definition col (m : Matrix4f) (j : nat) : Vector4f :=
  Vec4 (coeff m 0 j) (coeff m 1 j) (coeff m 2 j) (coeff m 3 j).

(** [v.homogeneous()]. *)
Definition homogeneous (v : Vector3f) : Vector4f := Vec4 (x3 v) (y3 v) (z3 v) 1.

(** [x + y] on 3-vectors. *)
Definition add3 (x y : Vector3f) : Vector3f :=
  Vec3 (x3 x + x3 y) (y3 x + y3 y) (z3 x + z3 y).

(** [x.dot(y)]. *)
Definition dot3 (x y : Vector3f) : R := x3 x * x3 y + y3 x * y3 y + z3 x * z3 y.
Definition dot4 (x y : Vector4f) : R :=
  x4 x * x4 y + y4 x * y4 y + z4 x * z4 y + w4 x * w4 y.

(** [x.cross(y)] (Eigen/Geometry, OrthoMethods.h):
    [(x1*y2 - x2*y1, x2*y0 - x0*y2, x0*y1 - x1*y0)]. *)
Definition cross (x y : Vector3f) : Vector3f :=
  Vec3 (y3 x * z3 y - z3 x * y3 y)
       (z3 x * x3 y - x3 x * z3 y)
       (x3 x * y3 y - y3 x * x3 y).

(** [m * v] and [a * b]. *)
Definition mul3_vec (m : Matrix3f) (v : Vector3f) : Vector3f :=
  Vec3 (dot3 (r3_0 m) v) (dot3 (r3_1 m) v) (dot3 (r3_2 m) v).

Definition mul_vec (m : Matrix4f) (v : Vector4f) : Vector4f :=
  Vec4 (dot4 (r4_0 m) v) (dot4 (r4_1 m) v) (dot4 (r4_2 m) v) (dot4 (r4_3 m) v).

Definition mul_row (r : Vector4f) (b : Matrix4f) : Vector4f :=
  Vec4 (dot4 r (col b 0)) (dot4 r (col b 1)) (dot4 r (col b 2)) (dot4 r (col b 3)).

Definition mul (a b : Matrix4f) : Matrix4f :=
  Mat4 (mul_row (r4_0 a) b) (mul_row (r4_1 a) b)
       (mul_row (r4_2 a) b) (mul_row (r4_3 a) b).

(** The 3x3 determinant with columns [a], [b], [c]: positive exactly when
    [(a, b, c)] is a right-handed frame. *)
Definition det3 (a b c : Vector3f) : R :=
  x3 a * (y3 b * z3 c - z3 b * y3 c)
  - x3 b * (y3 a * z3 c - z3 a * y3 c)
  + x3 c * (y3 a * z3 b - z3 a * y3 b).

(** *** The C library's [rand()]

    The hidden generator state is an arbitrary sequence of answers together
    with the number of calls made so far; each answer lies in
    [0 .. RAND_MAX].  [RAND_MAX] is the value of the GNU C library; the
    facts proved below only use that it is positive. *)
Definition RAND_MAX : Z := 2147483647.

Record RandState := MkRand { rand_seq : nat -> Z; rand_calls : nat }.

Definition std_rand (s : RandState) : Z * RandState :=
  ((rand_seq s (rand_calls s) mod (RAND_MAX + 1))%Z,
   MkRand (rand_seq s) (S (rand_calls s))).

(** [internal::random<float>()] (Eigen/Core, MathFunctions.h):
    [x + (y - x) * Scalar(std::rand()) / Scalar(RAND_MAX)] with
    [x = -1], [y = 1]. *)
Definition random_float (s : RandState) : R * RandState :=
  let '(r, s') := std_rand s in
  (-1 + (1 - -1) * IZR r / IZR RAND_MAX, s').

Fixpoint random_floats (n : nat) (s : RandState) : list R * RandState :=
  match n with
  | O => ([], s)
  | S k =>
      let '(d, s1) := random_float s in
      let '(ds, s2) := random_floats k s1 in
      (d :: ds, s2)
  end.

(** [Matrix4f::Random()]: sixteen draws, stored in column-major order, so
    coefficient [(i, j)] is draw number [4 * j + i]. *)
Definition Random4f (s : RandState) : Matrix4f * RandState :=
  let '(d, s') := random_floats 16 s in
  let c k := nth k d 0 in
  (Mat4 (Vec4 (c 0%nat) (c 4%nat) (c 8%nat) (c 12%nat))
        (Vec4 (c 1%nat) (c 5%nat) (c 9%nat) (c 13%nat))
        (Vec4 (c 2%nat) (c 6%nat) (c 10%nat) (c 14%nat))
        (Vec4 (c 3%nat) (c 7%nat) (c 11%nat) (c 15%nat)), s').

End Eigen.

(* ------------------------------------------------------------------ *)
(** ** transformations.cc                                              *)
(* ------------------------------------------------------------------ *)

Module Transformations.
Import Eigen.
Local Open Scope R_scope.

(** [ComputeTranslationMatrix]: the body is [return Matrix4f::Random();]. *)
Definition ComputeTranslationMatrix (offset : Vector3f) (s : RandState)
  : Matrix4f * RandState :=
  Random4f s.

(** [ComputeRotationMatrix]: the body is [return Matrix4f::Random();]. *)
Definition ComputeRotationMatrix (rotation_axis : Vector3f)
  (angle_in_radians : GLfloat) (s : RandState) : Matrix4f * RandState :=
  Random4f s.

(** [ComputeScalingMatrix]: the body is [return Matrix4f::Random();]. *)
Definition ComputeScalingMatrix (scale : GLfloat) (s : RandState)
  : Matrix4f * RandState :=
  Random4f s.

(** [ConvertDegreesToRadians]: the body is [return 0.0f;]. *)
Definition ConvertDegreesToRadians (angle_in_degrees : GLfloat) : GLfloat := 0.

(** What the specification asks of [ComputeTranslationMatrix]: the identity
    with [offset] in the first three rows of the last column. *)
Definition spec_TranslationMatrix (offset : Vector3f) : Matrix4f :=
  Mat4 (Vec4 1 0 0 (x3 offset))
       (Vec4 0 1 0 (y3 offset))
       (Vec4 0 0 1 (z3 offset))
       (Vec4 0 0 0 1).

(** A 3x3 block embedded in the upper-left corner of a 4x4 identity: the
    shape the specification asks of [ComputeRotationMatrix]. *)
Definition spec_embed3 (r : Matrix3f) : Matrix4f :=
  Mat4 (Vec4 (x3 (r3_0 r)) (y3 (r3_0 r)) (z3 (r3_0 r)) 0)
       (Vec4 (x3 (r3_1 r)) (y3 (r3_1 r)) (z3 (r3_1 r)) 0)
       (Vec4 (x3 (r3_2 r)) (y3 (r3_2 r)) (z3 (r3_2 r)) 0)
       (Vec4 0 0 0 1).

(** What the specification asks of [Model::ComputeModelMatrix]:
    translation times rotation. *)
Definition spec_ModelMatrix (position : Vector3f) (r : Matrix3f) : Matrix4f :=
  mul (spec_TranslationMatrix position) (spec_embed3 r).

End Transformations.

(* ------------------------------------------------------------------ *)
(** ** model.h / model.cc                                              *)
(* ------------------------------------------------------------------ *)

Module ModelClass.
Import Eigen.
Local Open Scope R_scope.

Record Model := MkModel {
  orientation_ : Vector3f;
  position_ : Vector3f;
  vertices_ : MatrixXf;
  indices_ : list GLuint;
  vertex_buffer_object_id_ : GLuint;
  vertex_array_object_id_ : GLuint;
  element_buffer_object_id_ : GLuint
}.

(** [Model(orientation, position, vertices)]: [indices_] is left
    default-constructed (empty). *)
Definition Model3 (orientation position : Vector3f) (vertices : MatrixXf)
  : Model :=
  MkModel orientation position vertices [] 0%N 0%N 0%N.

(** [Model(orientation, position, vertices, indices)]. *)
Definition Model4 (orientation position : Vector3f) (vertices : MatrixXf)
  (indices : list GLuint) : Model :=
  MkModel orientation position vertices indices 0%N 0%N 0%N.

(** [Model::ComputeModelMatrix]: the body is [return Matrix4f::Random();]. *)
Definition ComputeModelMatrix (m : Model) (s : RandState)
  : Matrix4f * RandState :=
  Random4f s.

(** [Model::set_orientation]: [orientation_ = orientation;]. *)
Definition set_orientation (orientation : Vector3f) (m : Model) : Model :=
  MkModel orientation (position_ m) (vertices_ m) (indices_ m)
          (vertex_buffer_object_id_ m) (vertex_array_object_id_ m)
          (element_buffer_object_id_ m).

(** [Model::set_position]: [position_ = position;]. *)
Definition set_position (position : Vector3f) (m : Model) : Model :=
  MkModel (orientation_ m) position (vertices_ m) (indices_ m)
          (vertex_buffer_object_id_ m) (vertex_array_object_id_ m)
          (element_buffer_object_id_ m).

Definition orientation (m : Model) : Vector3f := orientation_ m.
Definition position (m : Model) : Vector3f := position_ m.
Definition vertices (m : Model) : MatrixXf := vertices_ m.
Definition indices (m : Model) : list GLuint := indices_ m.
Definition vertex_buffer_object_id (m : Model) : GLuint :=
  vertex_buffer_object_id_ m.
Definition vertex_array_object_id (m : Model) : GLuint :=
  vertex_array_object_id_ m.
Definition element_buffer_object_id (m : Model) : GLuint :=
  element_buffer_object_id_ m.

(** [Model::SetVerticesIntoGpu]: the body is empty. *)
Definition SetVerticesIntoGpu (m : Model) : Model := m.

(** [Model::Draw]: the body is empty. *)
Definition Draw (projection view : Matrix4f) (m : Model) : Model := m.

(** The operations a client can apply to a [Model] once it is built. *)
Inductive ModelOp :=
| OpComputeModelMatrix
| OpSetVerticesIntoGpu
| OpDraw (projection view : Matrix4f)
| OpSetOrientation (orientation : Vector3f)
| OpSetPosition (position : Vector3f).

(** One operation on the object and the random generator. *)
Definition apply_op (op : ModelOp) (st : Model * RandState)
  : Model * RandState :=
  match op with
  | OpComputeModelMatrix => (fst st, snd (ComputeModelMatrix (fst st) (snd st)))
  | OpSetVerticesIntoGpu => (SetVerticesIntoGpu (fst st), snd st)
  | OpDraw projection view => (Draw projection view (fst st), snd st)
  | OpSetOrientation v => (set_orientation v (fst st), snd st)
  | OpSetPosition v => (set_position v (fst st), snd st)
  end.

Definition apply_ops (ops : list ModelOp) (st : Model * RandState)
  : Model * RandState :=
  fold_left (fun st op => apply_op op st) ops st.

End ModelClass.

(* ------------------------------------------------------------------ *)
(** ** camera_utils.cc                                                 *)
(* ------------------------------------------------------------------ *)

Module CameraUtils.
Import Eigen.
Local Open Scope R_scope.

(** [constexpr GLfloat kHalfPi = 0.5f * static_cast<GLfloat>(M_PI);] *)
Definition kHalfPi : GLfloat := 0.5 * PI.

(** [return tan(kHalfPi - angle);] *)
Definition ComputeCotangent (angle : GLfloat) : GLfloat := tan (kHalfPi - angle).

Definition ComputePerspectiveProjectionMatrix
  (field_of_view aspect_ratio near far : GLfloat) : Matrix4f :=
  let y_scale := ComputeCotangent (0.5 * field_of_view) in
  let x_scale := y_scale / aspect_ratio in
  let planes_distance := far - near in
  let z_scale := - (near + far) / planes_distance in
  let homogeneous_scale := -2 * near * far / planes_distance in
  Mat4 (Vec4 x_scale 0 0 0)
       (Vec4 0 y_scale 0 0)
       (Vec4 0 0 z_scale homogeneous_scale)
       (Vec4 0 0 (-1) 0).

(** The cotangent of the specification. *)
Definition cot (a : R) : R := cos a / sin a.

End CameraUtils.

(* ------------------------------------------------------------------ *)
(** ** assignment.cc: linear-algebra primitives                         *)
(* ------------------------------------------------------------------ *)

Module Assignment.
Import Eigen.
Local Open Scope R_scope.

Definition Add3dPoints (x y : Vector3f) : Vector3f := add3 x y.
Definition Multiply4x4Matrices (x y : Matrix4f) : Matrix4f := mul x y.
Definition MultiplyVectorAndMatrix (x : Matrix4f) (y : Vector4f) : Vector4f :=
  mul_vec x y.
Definition ComputeDotProduct (x y : Vector3f) : GLfloat := dot3 x y.
Definition ComputeCrossProduct (x y : Vector3f) : Vector3f := cross x y.

(** The skew-symmetric matrix of the specification: [skew x * y] is the
    cross product of [x] and [y]. *)
Definition spec_skew (x : Vector3f) : Matrix3f :=
  Mat3 (Vec3 0 (- z3 x) (y3 x))
       (Vec3 (z3 x) 0 (- x3 x))
       (Vec3 (- y3 x) (x3 x) 0).

End Assignment.

(* ------------------------------------------------------------------ *)
(** ** std::string helpers                                             *)
(* ------------------------------------------------------------------ *)

Module StdString.
Local Open Scope string_scope.

(** [s.resize(n)]: keeps the first [n] characters and pads with NUL. *)
Fixpoint resize (n : nat) (s : string) : string :=
  match n with
  | O => EmptyString
  | S k =>
      match s with
      | EmptyString => String Ascii.zero (resize k EmptyString)
      | String c s' => String c (resize k s')
      end
  end.

Fixpoint truncate (n : nat) (s : string) : string :=
  match n, s with
  | S k, String c s' => String c (truncate k s')
  | _, _ => EmptyString
  end.

(** Writes [src] over the first characters of [buf]; [buf] keeps its size. *)
Fixpoint overwrite (src buf : string) : string :=
  match src, buf with
  | String c src', String _ buf' => String c (overwrite src' buf')
  | _, _ => buf
  end.

(** What [glGetShaderInfoLog] / [glGetProgramInfoLog] store through
    [&buf.front()] when asked for at most [bufSize] characters: the text cut
    to [bufSize - 1] characters and a terminating NUL. *)
Definition write_c_str (text : string) (bufSize : nat) (buf : string) : string :=
  match bufSize with
  | O => buf
  | S k => overwrite (truncate k text ++ String Ascii.zero EmptyString) buf
  end.

(** [if (p) *p = v;] on a nullable [std::string*]. *)
Definition assign_if_non_null (p : option string) (v : string) : option string :=
  match p with
  | Some _ => Some v
  | None => None
  end.

(** Value of a local string after its address, or [nullptr], was handed to a
    callee that left the pointee as [p]. *)
Definition after_call (local : string) (p : option string) : string :=
  match p with
  | Some s => s
  | None => local
  end.

End StdString.

(* ------------------------------------------------------------------ *)
(** ** OpenGL: call trace and driver                                   *)
(* ------------------------------------------------------------------ *)

Module GL.

Inductive GLenum := GL_VERTEX_SHADER | GL_FRAGMENT_SHADER.

(** One constructor per entry point the sources use.  [glCreateShader] and
    [glCreateProgram] record the name the driver returned. *)
Inductive Call :=
| Ev_glCreateShader (type : GLenum) (returned : GLuint)
| Ev_glShaderSource (shader : GLuint) (source : string)
| Ev_glCompileShader (shader : GLuint)
| Ev_glGetShaderiv (shader : GLuint)
| Ev_glGetShaderInfoLog (shader : GLuint) (bufSize : nat)
| Ev_glDeleteShader (shader : GLuint)
| Ev_glCreateProgram (returned : GLuint)
| Ev_glAttachShader (program shader : GLuint)
| Ev_glLinkProgram (program : GLuint)
| Ev_glGetProgramiv (program : GLuint)
| Ev_glGetProgramInfoLog (program : GLuint) (bufSize : nat)
| Ev_glDeleteProgram (program : GLuint)
| Ev_glUseProgram (program : GLuint).

(** Calls in chronological order. *)
Definition Trace := list Call.

(** The driver's answers, each a function of the calls made so far.
    A status query answers [None] when the driver raises an error and leaves
    [*params] untouched; an info-log query answers [None] when it writes
    nothing. *)
Record Driver := MkDriver {
  create_shader : Trace -> GLenum -> GLuint;
  compile_status : Trace -> GLuint -> option GLint;
  shader_info_log : Trace -> GLuint -> option string;
  create_program : Trace -> GLuint;
  link_status : Trace -> GLuint -> option GLint;
  program_info_log : Trace -> GLuint -> option string
}.

(** Computations that call into OpenGL. *)
Definition GLM (A : Type) : Type := Trace -> A * Trace.

Definition ret {A : Type} (a : A) : GLM A := fun tr => (a, tr).

Definition bind {A B : Type} (c : GLM A) (k : A -> GLM B) : GLM B :=
  fun tr => let r := c tr in k (fst r) (snd r).

Definition emit (ev : Call) : GLM unit := fun tr => (tt, tr ++ [ev]).

Declare Scope glm_scope.
Delimit Scope glm_scope with glm.
Notation "x <- c ;; k" := (bind c (fun x => k))
  (at level 61, c at next level, right associativity) : glm_scope.
Notation "c ;;; k" := (bind c (fun _ => k))
  (at level 61, right associativity) : glm_scope.

Section Calls.
Variable drv : Driver.

Definition glCreateShader (type : GLenum) : GLM GLuint :=
  fun tr => let id := create_shader drv tr type in
            (id, tr ++ [Ev_glCreateShader type id]).

Definition glShaderSource (shader : GLuint) (source : string) : GLM unit :=
  emit (Ev_glShaderSource shader source).

Definition glCompileShader (shader : GLuint) : GLM unit :=
  emit (Ev_glCompileShader shader).

(** [glGetShaderiv(shader, GL_COMPILE_STATUS, &success)]; [success] is the
    value the variable held before the call. *)
Definition glGetShaderiv (shader : GLuint) (success : GLint) : GLM GLint :=
  fun tr => (match compile_status drv tr shader with
             | Some v => v
             | None => success
             end, tr ++ [Ev_glGetShaderiv shader]).

(** [glGetShaderInfoLog(shader, bufSize, nullptr, &buf.front())]. *)
Definition glGetShaderInfoLog (shader : GLuint) (bufSize : nat) (buf : string)
  : GLM string :=
  fun tr => (match shader_info_log drv tr shader with
             | Some text => StdString.write_c_str text bufSize buf
             | None => buf
             end, tr ++ [Ev_glGetShaderInfoLog shader bufSize]).

Definition glDeleteShader (shader : GLuint) : GLM unit :=
  emit (Ev_glDeleteShader shader).

Definition glCreateProgram : GLM GLuint :=
  fun tr => let id := create_program drv tr in
            (id, tr ++ [Ev_glCreateProgram id]).

Definition glAttachShader (program shader : GLuint) : GLM unit :=
  emit (Ev_glAttachShader program shader).

Definition glLinkProgram (program : GLuint) : GLM unit :=
  emit (Ev_glLinkProgram program).

(** [glGetProgramiv(program, GL_LINK_STATUS, &success)]. *)
Definition glGetProgramiv (program : GLuint) (success : GLint) : GLM GLint :=
  fun tr => (match link_status drv tr program with
             | Some v => v
             | None => success
             end, tr ++ [Ev_glGetProgramiv program]).

Definition glGetProgramInfoLog (program : GLuint) (bufSize : nat) (buf : string)
  : GLM string :=
  fun tr => (match program_info_log drv tr program with
             | Some text => StdString.write_c_str text bufSize buf
             | None => buf
             end, tr ++ [Ev_glGetProgramInfoLog program bufSize]).

Definition glDeleteProgram (program : GLuint) : GLM unit :=
  emit (Ev_glDeleteProgram program).

Definition glUseProgram (program : GLuint) : GLM unit :=
  emit (Ev_glUseProgram program).

End Calls.

(** Shader names handed out by [glCreateShader] in a run of calls. *)
Fixpoint shaders_created (calls : list Call) : list GLuint :=
  match calls with
  | [] => []
  | Ev_glCreateShader _ id :: rest => id :: shaders_created rest
  | _ :: rest => shaders_created rest
  end.

(** Shader names passed to [glDeleteShader] in a run of calls. *)
Fixpoint shaders_deleted (calls : list Call) : list GLuint :=
  match calls with
  | [] => []
  | Ev_glDeleteShader id :: rest => id :: shaders_deleted rest
  | _ :: rest => shaders_deleted rest
  end.

(** Program names handed out by [glCreateProgram], passed to
    [glDeleteProgram], and passed to [glUseProgram] in a run of calls. *)
Fixpoint programs_created (calls : list Call) : list GLuint :=
  match calls with
  | [] => []
  | Ev_glCreateProgram id :: rest => id :: programs_created rest
  | _ :: rest => programs_created rest
  end.

Fixpoint programs_deleted (calls : list Call) : list GLuint :=
  match calls with
  | [] => []
  | Ev_glDeleteProgram id :: rest => id :: programs_deleted rest
  | _ :: rest => programs_deleted rest
  end.

Fixpoint programs_used (calls : list Call) : list GLuint :=
  match calls with
  | [] => []
  | Ev_glUseProgram id :: rest => id :: programs_used rest
  | _ :: rest => programs_used rest
  end.

(** A driver as the OpenGL specification describes it for the name zero:
    status queries on it raise [GL_INVALID_VALUE] and leave [*params]
    untouched. *)
Definition rejects_name_zero (drv : Driver) : Prop :=
  forall tr : Trace,
    compile_status drv tr 0%N = None /\ link_status drv tr 0%N = None.

End GL.

(* ------------------------------------------------------------------ *)
(** ** shader_program.h / shader_program.cc                            *)
(* ------------------------------------------------------------------ *)

Module Shader.
Import GL StdString.
Local Open Scope glm_scope.
Local Open Scope string_scope.

(** [constexpr int kNumCharsInfoLog = 512;] *)
Definition kNumCharsInfoLog : nat := 512.

Inductive ShaderType := VERTEX | FRAGMENT.

Record ShaderProgram := MkShaderProgram {
  vertex_shader_src_ : string;
  fragment_shader_src_ : string;
  vertex_shader_ : GLuint;
  fragment_shader_ : GLuint;
  shader_program_id_ : GLuint;
  created_ : bool
}.

(** The default constructor. *)
Definition ShaderProgram_ctor : ShaderProgram :=
  MkShaderProgram "" "" 0%N 0%N 0%N false.

Definition shader_program_id (this : ShaderProgram) : GLuint :=
  shader_program_id_ this.

Definition set_vertex_shader_src_ (v : string) (this : ShaderProgram) :=
  MkShaderProgram v (fragment_shader_src_ this) (vertex_shader_ this)
    (fragment_shader_ this) (shader_program_id_ this) (created_ this).

Definition set_fragment_shader_src_ (v : string) (this : ShaderProgram) :=
  MkShaderProgram (vertex_shader_src_ this) v (vertex_shader_ this)
    (fragment_shader_ this) (shader_program_id_ this) (created_ this).

Definition set_vertex_shader_ (v : GLuint) (this : ShaderProgram) :=
  MkShaderProgram (vertex_shader_src_ this) (fragment_shader_src_ this) v
    (fragment_shader_ this) (shader_program_id_ this) (created_ this).

Definition set_fragment_shader_ (v : GLuint) (this : ShaderProgram) :=
  MkShaderProgram (vertex_shader_src_ this) (fragment_shader_src_ this)
    (vertex_shader_ this) v (shader_program_id_ this) (created_ this).

Definition set_shader_program_id_ (v : GLuint) (this : ShaderProgram) :=
  MkShaderProgram (vertex_shader_src_ this) (fragment_shader_src_ this)
    (vertex_shader_ this) (fragment_shader_ this) v (created_ this).

Definition set_created_ (v : bool) (this : ShaderProgram) :=
  MkShaderProgram (vertex_shader_src_ this) (fragment_shader_src_ this)
    (vertex_shader_ this) (fragment_shader_ this) (shader_program_id_ this) v.

Section WithEnvironment.
Variable drv : Driver.
(** The file system: the text of a file that can be opened. *)
Variable fs : string -> option string.

(** [CompileShader(shader_src, shader_type, info_log)]: the shader id, zero
    on failure, and the pointee of [info_log] afterwards. *)
Definition CompileShader (shader_src : string) (shader_type : ShaderType)
  (info_log : option string) : GLM (GLuint * option string) :=
  shader_id <- match shader_type with
               | VERTEX => glCreateShader drv GL_VERTEX_SHADER
               | FRAGMENT => glCreateShader drv GL_FRAGMENT_SHADER
               end ;;
  glShaderSource shader_id shader_src ;;;
  glCompileShader shader_id ;;;
  success <- glGetShaderiv drv shader_id 0%Z ;;
  if (success =? 0)%Z then
    match info_log with
    | Some buf =>
        written <- glGetShaderInfoLog drv shader_id kNumCharsInfoLog
                     (resize kNumCharsInfoLog buf) ;;
        ret (0%N, Some written)
    | None => ret (0%N, None)
    end
  else ret (shader_id, info_log).

(** [CreateShaderProgram(vertex_shader, fragment_shader, info_log)]. *)
Definition CreateShaderProgram (vertex_shader fragment_shader : GLuint)
  (info_log : option string) : GLM (GLuint * option string) :=
  shader_program <- glCreateProgram drv ;;
  glAttachShader shader_program vertex_shader ;;;
  glAttachShader shader_program fragment_shader ;;;
  glLinkProgram shader_program ;;;
  success <- glGetProgramiv drv shader_program 0%Z ;;
  if (success =? 0)%Z then
    match info_log with
    | Some buf =>
        written <- glGetProgramInfoLog drv shader_program kNumCharsInfoLog
                     (resize kNumCharsInfoLog buf) ;;
        ret (0%N, Some written)
    | None => ret (0%N, None)
    end
  else ret (shader_program, info_log).

(** [ReleaseShaderResources(vertex_shader, fragment_shader)]. *)
Definition ReleaseShaderResources (vertex_shader fragment_shader : GLuint)
  : GLM unit :=
  glDeleteShader vertex_shader ;;;
  glDeleteShader fragment_shader.

(** [LoadShaderFromFile(filepath, loaded_file)]. *)
Definition LoadShaderFromFile (filepath : string) (loaded_file : option string)
  : bool * option string :=
  match fs filepath, loaded_file with
  | Some text, Some _ => (true, Some text)
  | _, _ => (false, loaded_file)
  end.

Definition LoadVertexShaderFromString (vertex_shader_source : string)
  (this : ShaderProgram) : bool * ShaderProgram :=
  (true, set_vertex_shader_src_ vertex_shader_source this).

Definition LoadFragmentShaderFromString (fragment_shader_source : string)
  (this : ShaderProgram) : bool * ShaderProgram :=
  (true, set_fragment_shader_src_ fragment_shader_source this).

Definition LoadVertexShaderFromFile (vertex_shader_path : string)
  (this : ShaderProgram) : bool * ShaderProgram :=
  let r := LoadShaderFromFile vertex_shader_path
             (Some (vertex_shader_src_ this)) in
  (fst r,
   set_vertex_shader_src_ (after_call (vertex_shader_src_ this) (snd r)) this).

Definition LoadFragmentShaderFromFile (fragment_shader_path : string)
  (this : ShaderProgram) : bool * ShaderProgram :=
  let r := LoadShaderFromFile fragment_shader_path
             (Some (fragment_shader_src_ this)) in
  (fst r,
   set_fragment_shader_src_ (after_call (fragment_shader_src_ this) (snd r))
     this).

(** The three protected stages.  Each returns its [bool], the pointee of
    [info_log] afterwards, and the object. *)
Definition BuildVertexShader (info_log : option string) (this : ShaderProgram)
  : GLM (bool * option string * ShaderProgram) :=
  r <- CompileShader (vertex_shader_src_ this) VERTEX info_log ;;
  let this' := set_vertex_shader_ (fst r) this in
  ret (negb (vertex_shader_ this' =? 0)%N, snd r, this').

Definition BuildFragmentShader (info_log : option string) (this : ShaderProgram)
  : GLM (bool * option string * ShaderProgram) :=
  r <- CompileShader (fragment_shader_src_ this) FRAGMENT info_log ;;
  let this' := set_fragment_shader_ (fst r) this in
  ret (negb (fragment_shader_ this' =? 0)%N, snd r, this').

Definition LinkProgram (info_log : option string) (this : ShaderProgram)
  : GLM (bool * option string * ShaderProgram) :=
  r <- CreateShaderProgram (vertex_shader_ this) (fragment_shader_ this)
         info_log ;;
  let this' := set_shader_program_id_ (fst r) this in
  ReleaseShaderResources (vertex_shader_ this') (fragment_shader_ this') ;;;
  ret (negb (shader_program_id_ this' =? 0)%N, snd r, this').

(** [ShaderProgram::Create(error_info_log)]: the returned [bool], the pointee
    of [error_info_log] afterwards, and the object. *)
Definition Create (error_info_log : option string) (this : ShaderProgram)
  : GLM (bool * option string * ShaderProgram) :=
  if created_ this then ret (true, error_info_log, this)
  else
    let info_log := "" in
    r1 <- BuildVertexShader (Some info_log) this ;;
    let info_log := after_call info_log (snd (fst r1)) in
    let this := snd r1 in
    if negb (fst (fst r1)) then
      ret (false, assign_if_non_null error_info_log info_log, this)
    else
      r2 <- BuildFragmentShader (Some info_log) this ;;
      let info_log := after_call info_log (snd (fst r2)) in
      let this := snd r2 in
      if negb (fst (fst r2)) then
        ret (false, assign_if_non_null error_info_log info_log, this)
      else
        r3 <- LinkProgram (Some info_log) this ;;
        let info_log := after_call info_log (snd (fst r3)) in
        let this := snd r3 in
        if negb (fst (fst r3)) then
          ret (false, assign_if_non_null error_info_log info_log, this)
        else
          ret (true, error_info_log, set_created_ true this).

(** [ShaderProgram::Use() const]. *)
Definition Use (this : ShaderProgram) : GLM bool :=
  if created_ this then
    glUseProgram (shader_program_id_ this) ;;;
    ret true
  else ret false.

(** [ShaderProgram::~ShaderProgram()]. *)
Definition Destroy (this : ShaderProgram) : GLM unit :=
  if created_ this then glDeleteProgram (shader_program_id_ this)
  else ret tt.

(** *** Client histories

    The public operations a client can apply to a [ShaderProgram]. *)
Inductive Op :=
| OpLoadVertexShaderFromString (source : string)
| OpLoadFragmentShaderFromString (source : string)
| OpLoadVertexShaderFromFile (path : string)
| OpLoadFragmentShaderFromFile (path : string)
| OpCreate (error_info_log : option string)
| OpUse.

Definition is_Create (op : Op) : bool :=
  match op with OpCreate _ => true | _ => false end.

(** One operation: the [bool] it returns, the object and the trace. *)
Definition exec (op : Op) (this : ShaderProgram) : GLM (bool * ShaderProgram) :=
  match op with
  | OpLoadVertexShaderFromString s => ret (LoadVertexShaderFromString s this)
  | OpLoadFragmentShaderFromString s => ret (LoadFragmentShaderFromString s this)
  | OpLoadVertexShaderFromFile p => ret (LoadVertexShaderFromFile p this)
  | OpLoadFragmentShaderFromFile p => ret (LoadFragmentShaderFromFile p this)
  | OpCreate log =>
      r <- Create log this ;;
      ret (fst (fst r), snd r)
  | OpUse =>
      b <- Use this ;;
      ret (b, this)
  end.

(** [Reach succeeded this tr]: the object [this] and the trace [tr] are what
    some client history leaves, starting from the constructor; [succeeded]
    tells whether a [Create] call of that history returned [true].  Between
    the object's operations any other OpenGL calls may be made. *)
Inductive Reach : bool -> ShaderProgram -> Trace -> Prop :=
| Reach_ctor : forall tr, Reach false ShaderProgram_ctor tr
| Reach_op : forall succeeded this tr op,
    Reach succeeded this tr ->
    Reach (succeeded || (is_Create op && fst (fst (exec op this tr))))
          (snd (fst (exec op this tr))) (snd (exec op this tr))
| Reach_other : forall succeeded this tr calls,
    Reach succeeded this tr ->
    Reach succeeded this (tr ++ calls)%list.

(** [StageFailure this tr this' info_log tr']: running the stages of [Create]
    in order on [this] from the trace [tr], one of them returns [false],
    leaving the object [this'], the local [info_log] and the trace [tr']. *)
Inductive StageFailure (this : ShaderProgram) (tr : Trace)
  : ShaderProgram -> string -> Trace -> Prop :=
| vertex_stage_fails : forall p1 this1 tr1,
    BuildVertexShader (Some "") this tr = (false, p1, this1, tr1) ->
    StageFailure this tr this1 (after_call "" p1) tr1
| fragment_stage_fails : forall p1 this1 tr1 p2 this2 tr2,
    BuildVertexShader (Some "") this tr = (true, p1, this1, tr1) ->
    BuildFragmentShader (Some (after_call "" p1)) this1 tr1
      = (false, p2, this2, tr2) ->
    StageFailure this tr this2 (after_call (after_call "" p1) p2) tr2
| link_stage_fails : forall p1 this1 tr1 p2 this2 tr2 p3 this3 tr3,
    BuildVertexShader (Some "") this tr = (true, p1, this1, tr1) ->
    BuildFragmentShader (Some (after_call "" p1)) this1 tr1
      = (true, p2, this2, tr2) ->
    LinkProgram (Some (after_call (after_call "" p1) p2)) this2 tr2
      = (false, p3, this3, tr3) ->
    StageFailure this tr this3
      (after_call (after_call (after_call "" p1) p2) p3) tr3.

End WithEnvironment.

(** The object invariant: [created_] is set exactly when the program handle
    is not zero. *)
Definition Inv (this : ShaderProgram) : Prop :=
  created_ this = negb (shader_program_id_ this =? 0)%N.

(** *** A small driver for concrete runs

    Names are handed out in increasing order starting at 1; a shader compiles
    exactly when its source is one of the two well-formed sources of the
    test-suite; linking succeeds or fails as [links] says. *)
Definition vertex_shader_src : string :=
  "#version 330 core
layout (location = 0) in vec3 position;

void main() {
gl_Position = vec4(position.x, position.y, position.z, 1.0f);
}
".

Definition fragment_shader_src : string :=
  "#version 330 core
out vec4 color;
void main() {
color = vec4(1.0f, 0.5f, 0.2f, 1.0f);
}
".

Definition bad_vertex_shader : string := vertex_shader_src ++ "asdasdjqw;rjdekl".
Definition bad_fragment_shader : string := vertex_shader_src ++ "asdasdjqw;jdekl".

Definition is_creation (c : Call) : bool :=
  match c with
  | Ev_glCreateShader _ _ | Ev_glCreateProgram _ => true
  | _ => false
  end.

Definition fresh_name (tr : Trace) : GLuint :=
  N.of_nat (S (List.length (filter is_creation tr))).

(** The source most recently attached to [shader]. *)
Definition source_of (shader : GLuint) (tr : Trace) : option string :=
  fold_left (fun acc c =>
               match c with
               | Ev_glShaderSource id src =>
                   if (id =? shader)%N then Some src else acc
               | _ => acc
               end) tr None.

Definition well_formed (src : string) : bool :=
  String.eqb src vertex_shader_src || String.eqb src fragment_shader_src.

Definition toy_driver (links : bool) : Driver :=
  MkDriver
    (fun tr _ => fresh_name tr)
    (fun tr shader =>
       if (shader =? 0)%N then None
       else match source_of shader tr with
            | Some src => Some (if well_formed src then 1%Z else 0%Z)
            | None => Some 0%Z
            end)
    (fun _ shader =>
       if (shader =? 0)%N then None else Some "0:7(1): error: syntax error")
    (fun tr => fresh_name tr)
    (fun _ program =>
       if (program =? 0)%N then None
       else Some (if links then 1%Z else 0%Z))
    (fun _ program =>
       if (program =? 0)%N then None else Some "error: linking failed").

Definition no_files : string -> option string := fun _ => None.

(** The objects of the two shader tests after both sources are loaded. *)
Definition valid_program : ShaderProgram :=
  MkShaderProgram vertex_shader_src fragment_shader_src 0%N 0%N 0%N false.

Definition invalid_program : ShaderProgram :=
  MkShaderProgram bad_vertex_shader bad_fragment_shader 0%N 0%N 0%N false.

(** A well-formed vertex source with a fragment source that does not
    compile. *)
Definition invalid_fragment_program : ShaderProgram :=
  MkShaderProgram vertex_shader_src bad_fragment_shader 0%N 0%N 0%N false.

(** [Create(nullptr)] on [valid_program] with a driver that links. *)
Definition created_run : bool * option string * ShaderProgram * Trace :=
  Create (toy_driver true) None valid_program [].



(** A file system with one readable file. *)
Definition one_file (path text : string) : string -> option string :=
  fun p => if String.eqb p path then Some text else None.

End Shader.

(* ------------------------------------------------------------------ *)
(** ** The float code in IEEE binary32                                 *)
(* ------------------------------------------------------------------ *)

(** The functions of camera_utils.cc and assignment.cc whose results depend
    on rounding, embedded over binary32 numbers with the operations of the
    Standard Library's [SpecFloat] (round to nearest, ties to even; overflow
    to infinity; NaN).  The C library's [tan] is a parameter. *)
Module Binary32.

Definition prec : Z := 24.
Definition emax : Z := 128.

Definition float := spec_float.

Definition add (x y : float) : float := SFadd prec emax x y.
Definition sub (x y : float) : float := SFsub prec emax x y.
Definition mul (x y : float) : float := SFmul prec emax x y.
Definition div (x y : float) : float := SFdiv prec emax x y.
Definition neg (x : float) : float := SFopp x.

(** The binary32 number nearest to [m * 2^e]: conversions from integers and
    from [double] constants, and literals such as [0.5f]. *)
Definition of_dyadic (m e : Z) : float := binary_normalize prec emax m e false.
Definition of_Z (z : Z) : float := of_dyadic z 0.

(** A decimal literal [p/q] with small [p] and [q], such as [0.1f]: the
    binary32 number nearest to the quotient. *)
Definition ratio (p q : Z) : float := div (of_Z p) (of_Z q).

Definition zero : float := S754_zero false.
Definition one : float := of_Z 1.
Definition half : float := of_dyadic 1 (-1).




Definition float_eqb (f g : float) : bool :=
  match f, g with
  | S754_zero s, S754_zero t => Bool.eqb s t
  | S754_infinity s, S754_infinity t => Bool.eqb s t
  | S754_nan, S754_nan => true
  | S754_finite s m e, S754_finite t n k =>
      Bool.eqb s t && Pos.eqb m n && Z.eqb e k
  | _, _ => false
  end.

Record Vector3f := Vec3 { x3 : float; y3 : float; z3 : float }.
Record Vector4f := Vec4 { x4 : float; y4 : float; z4 : float; w4 : float }.
Record Matrix4f :=
  Mat4 { r4_0 : Vector4f; r4_1 : Vector4f; r4_2 : Vector4f; r4_3 : Vector4f }.

Definition UnitX : Vector3f := Vec3 one zero zero.
Definition UnitY : Vector3f := Vec3 zero one zero.
Definition UnitZ : Vector3f := Vec3 zero zero one.

Definition vector_of_Z (a b c : Z) : Vector3f := Vec3 (of_Z a) (of_Z b) (of_Z c).

(** [x.dot(y)] for a fixed size of three: Eigen's unrolled reduction adds the
    first product to the sum of the other two. *)
Definition dot3 (x y : Vector3f) : float :=
  add (mul (x3 x) (x3 y)) (add (mul (y3 x) (y3 y)) (mul (z3 x) (z3 y))).


(** [x.cross(y)]. *)
Definition cross (x y : Vector3f) : Vector3f :=
  Vec3 (sub (mul (y3 x) (z3 y)) (mul (z3 x) (y3 y)))
       (sub (mul (z3 x) (x3 y)) (mul (x3 x) (z3 y)))
       (sub (mul (x3 x) (y3 y)) (mul (y3 x) (x3 y))).

(** [x + y] on fixed-size vectors: one addition per component. *)
Definition add3 (x y : Vector3f) : Vector3f :=
  Vec3 (add (x3 x) (x3 y)) (add (y3 x) (y3 y)) (add (z3 x) (z3 y)).


(** assignment.cc *)
Definition Add3dPoints (x y : Vector3f) : Vector3f := add3 x y.
Definition ComputeDotProduct (x y : Vector3f) : float := dot3 x y.
Definition ComputeCrossProduct (x y : Vector3f) : Vector3f := cross x y.

(** camera_utils.cc.  [M_PI] is the [double] [884279719003555 * 2^-48];
    [static_cast<GLfloat>] rounds it to binary32. *)
Definition M_PI_as_GLfloat : float := of_dyadic 884279719003555 (-48).

(** [constexpr GLfloat kHalfPi = 0.5f * static_cast<GLfloat>(M_PI);] *)
Definition kHalfPi : float := mul half M_PI_as_GLfloat.

Section WithLibm.
(** The C library's tangent on [GLfloat]. *)
Variable tanf : float -> float.

(** [return tan(kHalfPi - angle);] *)
Definition ComputeCotangent (angle : float) : float := tanf (sub kHalfPi angle).

Definition ComputePerspectiveProjectionMatrix
  (field_of_view aspect_ratio near far : float) : Matrix4f :=
  let y_scale := ComputeCotangent (mul half field_of_view) in
  let x_scale := div y_scale aspect_ratio in
  let planes_distance := sub far near in
  let z_scale := div (neg (add near far)) planes_distance in
  let homogeneous_scale := div (mul (mul (of_Z (-2)) near) far) planes_distance in
  Mat4 (Vec4 x_scale zero zero zero)
       (Vec4 zero y_scale zero zero)
       (Vec4 zero zero z_scale homogeneous_scale)
       (Vec4 zero zero (of_Z (-1)) zero).

End WithLibm.



(** *** Finite checks

    Integers in a range, the binary32 numbers that stand for an integer
    (zero has two), and the tables that tell on which integers an operation
    is exact. *)
Definition range (lo hi : Z) : list Z :=
  map (fun k => (lo + Z.of_nat k)%Z) (seq 0 (Z.to_nat (hi - lo + 1))).

Definition reps (z : Z) : list float :=
  if (z =? 0)%Z then [S754_zero false; S754_zero true] else [of_Z z].

(** [f] is a binary32 number whose value is the integer [z]. *)
Definition stands_for (z : Z) (f : float) : Prop := In f (reps z).

Definition exact_on (op : float -> float -> float) (opZ : Z -> Z -> Z)
  (bound_a bound_b : Z) : bool :=
  forallb (fun a =>
    forallb (fun b =>
      forallb (fun fa =>
        forallb (fun fb =>
          existsb (float_eqb (op fa fb)) (reps (opZ a b)))
          (reps b))
        (reps a))
      (range (- bound_b) bound_b))
    (range (- bound_a) bound_a).


End Binary32.

(* ------------------------------------------------------------------ *)
(** ** main.cc: the shader set-up of the scene driver                  *)
(* ------------------------------------------------------------------ *)

Module Main.
Import GL StdString Shader.
Local Open Scope glm_scope.
Local Open Scope string_scope.

Definition newline : string := String (Ascii.ascii_of_nat 10) EmptyString.

Definition vertex_shader_src : string :=
  "#version 330 core
layout (location = 0) in vec3 position;
uniform mat4 model;
uniform mat4 view;
uniform mat4 projection;

void main() {
gl_Position = projection * view * model * vec4(position, 1.0f);
}
".

Definition fragment_shader_src : string := Shader.fragment_shader_src.

(** Text written to [std::cout] or [std::cerr]. *)
Inductive Output :=
| Cout (text : string)
| Cerr (text : string).

Section WithDriver.
Variable drv : Driver.

(** [CreateShaderProgram(wvu::ShaderProgram* shader_program)]: the returned
    [bool], the pointee afterwards, and what was printed. *)
Definition CreateShaderProgram (shader_program : option ShaderProgram)
  : GLM (bool * option ShaderProgram * list Output) :=
  match shader_program with
  | None => ret (false, None, [])
  | Some this =>
      let this := snd (LoadVertexShaderFromString vertex_shader_src this) in
      let this := snd (LoadFragmentShaderFromString fragment_shader_src this) in
      let error_info_log := "" in
      r <- Create drv (Some error_info_log) this ;;
      let error_info_log := after_call error_info_log (snd (fst r)) in
      let this := snd r in
      let out :=
        if negb (fst (fst r))
        then [Cout ("ERROR: " ++ error_info_log ++ newline)]
        else [] in
      if (shader_program_id this =? 0)%N then
        ret (false, Some this,
             (out ++ [Cerr ("ERROR: Could not create a shader program."
                              ++ newline)])%list)
      else ret (true, Some this, out)
  end.

End WithDriver.
End Main.

(* ================================================================== *)
(** * Theorems                                                         *)
(* ================================================================== *)

(* ------------------------------------------------------------------ *)
(** ** Eigen's [Random] stays in [-1, 1]                               *)
(* ------------------------------------------------------------------ *)

Section RandomFacts.
Import Eigen.
Local Open Scope R_scope.

Lemma std_rand_range (s : RandState) :
  (0 <= fst (std_rand s) <= RAND_MAX)%Z.
Proof.
  unfold std_rand; cbn [fst].
  pose proof (Z.mod_pos_bound (rand_seq s (rand_calls s)) (RAND_MAX + 1)) as B.
  unfold RAND_MAX in *. lia.
Qed.

Lemma random_float_range (s : RandState) :
  -1 <= fst (random_float s) <= 1.
Proof.
  unfold random_float.
  pose proof (std_rand_range s) as [Hlo Hhi].
  destruct (std_rand s) as [r s']; cbn [fst] in *.
  apply IZR_le in Hlo, Hhi.
  assert (Hmax : 0 < IZR RAND_MAX) by (apply IZR_lt; reflexivity).
  set (a := IZR r) in *. set (m := IZR RAND_MAX) in *.
  assert (Hq : 0 <= a / m <= 1).
  { split.
    - apply Rmult_le_pos; [exact Hlo | left; apply Rinv_0_lt_compat; exact Hmax].
    - apply (Rmult_le_reg_r m); [exact Hmax |].
      unfold Rdiv. rewrite Rmult_assoc, Rinv_l by lra. lra. }
  replace ((1 - -1) * a / m) with (2 * (a / m)) by (unfold Rdiv; ring).
  lra.
Qed.

Lemma random_floats_range (n : nat) :
  forall (s : RandState) (k : nat),
    -1 <= nth k (fst (random_floats n s)) 0 <= 1.
Proof.
  induction n as [|n IH]; intros s k.
  - cbn. destruct k; lra.
  - cbn [random_floats].
    pose proof (random_float_range s) as Hd.
    destruct (random_float s) as [d s1]; cbn [fst] in Hd.
    specialize (IH s1).
    destruct (random_floats n s1) as [ds s2]; cbn [fst] in *.
    destruct k as [|k]; cbn [nth]; [exact Hd | apply IH].
Qed.

Lemma Random4f_coeff_range (s : RandState) (i j : nat) :
  -1 <= coeff (fst (Random4f s)) i j <= 1.
Proof.
  unfold Random4f.
  pose proof (random_floats_range 16 s) as H.
  destruct (random_floats 16 s) as [d s']; cbn [fst] in *.
  destruct i as [|[|[|i]]]; destruct j as [|[|[|j]]]; cbn; apply H.
Qed.

(** The last column of a matrix is what it sends [[0; 0; 0; 1]] to. *)
Lemma mul_vec_origin (m : Matrix4f) :
  mul_vec m (homogeneous Zero3) = col m 3.
Proof.
  destruct m as [[? ? ? ?] [? ? ? ?] [? ? ? ?] [? ? ? ?]].
  unfold mul_vec, col, coeff, dot4, homogeneous, Zero3; cbn.
  f_equal; ring.
Qed.

End RandomFacts.

(* ------------------------------------------------------------------ *)
(** ** Transformations and the model matrix                            *)
(* ------------------------------------------------------------------ *)

Section TransformationFacts.
Import Eigen Transformations ModelClass.
Local Open Scope R_scope.

(** The matrix the specification describes does translate points. *)
Lemma spec_TranslationMatrix_translates (offset p : Vector3f) :
  mul_vec (spec_TranslationMatrix offset) (homogeneous p)
  = homogeneous (add3 p offset).
Proof.
  destruct offset, p.
  unfold mul_vec, spec_TranslationMatrix, homogeneous, add3, dot4; cbn.
  f_equal; ring.
Qed.

(** The matrix the specification describes rotates first, then translates. *)
Lemma spec_ModelMatrix_rotates_then_translates
  (position : Vector3f) (r : Matrix3f) (v : Vector3f) :
  mul_vec (spec_ModelMatrix position r) (homogeneous v)
  = homogeneous (add3 (mul3_vec r v) position).
Proof.
  destruct position, v, r as [[? ? ?] [? ? ?] [? ? ?]].
  unfold spec_ModelMatrix, mul, mul_row, mul_vec, mul3_vec, col, coeff,
    spec_TranslationMatrix, spec_embed3, homogeneous, add3, dot4, dot3; cbn.
  f_equal; ring.
Qed.

Lemma ComputeTranslationMatrix_offset_independent
  (offset offset' : Vector3f) (s : RandState) :
  ComputeTranslationMatrix offset s = ComputeTranslationMatrix offset' s.
Proof. reflexivity. Qed.

Lemma ComputeModelMatrix_model_independent (m m' : Model) (s : RandState) :
  ComputeModelMatrix m s = ComputeModelMatrix m' s.
Proof. reflexivity. Qed.

(** C7.  [ComputeTranslationMatrix] returns Eigen's random matrix whatever
    the offset is.  At the offset [(2, 0, 0)] and the point [(0, 0, 0)], and
    for every state of the random generator, the result is not the
    translation matrix of the specification and does not send [[p; 1]] to
    [[p + offset; 1]]: its coefficients lie in [[-1, 1]]. *)
Theorem ComputeTranslationMatrix_is_random :
  forall s : RandState,
    let offset := Vec3 2 0 0 in
    let p := Zero3 in
    let t := fst (ComputeTranslationMatrix offset s) in
    t = fst (Random4f s) /\
    t <> spec_TranslationMatrix offset /\
    mul_vec t (homogeneous p) <> homogeneous (add3 p offset).
Proof.
  intros s offset p t.
  assert (Hneq : mul_vec t (homogeneous p) <> homogeneous (add3 p offset)).
  { subst t p. rewrite mul_vec_origin. intros E.
    apply (f_equal x4) in E. cbn [col x4] in E.
    pose proof (Random4f_coeff_range s 0 3) as B.
    unfold ComputeTranslationMatrix in E. rewrite E in B.
    subst offset. unfold homogeneous, add3, Zero3 in B.
    cbn [x3 y3 z3 x4] in B. lra. }
  split; [reflexivity | split; [| exact Hneq]].
  intros E. apply Hneq. rewrite E. apply spec_TranslationMatrix_translates.
Qed.

(** C1.  [Model::ComputeModelMatrix] returns Eigen's random matrix and reads
    neither [orientation_] nor [position_].  For the model at position
    [(5, 0, 0)], every state of the random generator and every 3x3 matrix
    [r] standing for the rotation, the result does not send the local origin
    [[0; 1]] to [[r * 0 + position; 1]], so it is not translation times
    rotation. *)
Theorem ComputeModelMatrix_is_random :
  forall (s : RandState) (vertices : MatrixXf) (r : Matrix3f),
    let m := Model3 (Vec3 0 0 1) (Vec3 5 0 0) vertices in
    let mm := fst (ComputeModelMatrix m s) in
    mm = fst (Random4f s) /\
    mul_vec mm (homogeneous Zero3)
      <> homogeneous (add3 (mul3_vec r Zero3) (position m)) /\
    mm <> spec_ModelMatrix (position m) r.
Proof.
  intros s vertices r m mm.
  assert (Hneq : mul_vec mm (homogeneous Zero3)
                 <> homogeneous (add3 (mul3_vec r Zero3) (position m))).
  { subst mm. rewrite mul_vec_origin. intros E.
    apply (f_equal x4) in E. cbn [col x4] in E.
    pose proof (Random4f_coeff_range s 0 3) as B.
    unfold ComputeModelMatrix in E. rewrite E in B.
    destruct r as [[? ? ?] [? ? ?] [? ? ?]].
    subst m. unfold homogeneous, add3, mul3_vec, dot3, Zero3, position, Model3 in B.
    cbn [x3 y3 z3 x4 r3_0 r3_1 r3_2 position_] in B. lra. }
  split; [reflexivity | split; [exact Hneq |]].
  intros E. apply Hneq. rewrite E.
  apply spec_ModelMatrix_rotates_then_translates.
Qed.

(** C10.  [set_position] stores its argument as the position and leaves the
    orientation, the vertices, the indices and the three buffer ids as they
    were; [set_orientation] does the same for the orientation. *)
Theorem setters_only_touch_their_member :
  forall (m : Model) (v : Vector3f),
    (position (set_position v m) = v /\
     orientation (set_position v m) = orientation m /\
     vertices (set_position v m) = vertices m /\
     indices (set_position v m) = indices m /\
     vertex_buffer_object_id (set_position v m) = vertex_buffer_object_id m /\
     vertex_array_object_id (set_position v m) = vertex_array_object_id m /\
     element_buffer_object_id (set_position v m) = element_buffer_object_id m)
    /\
    (orientation (set_orientation v m) = v /\
     position (set_orientation v m) = position m /\
     vertices (set_orientation v m) = vertices m /\
     indices (set_orientation v m) = indices m /\
     vertex_buffer_object_id (set_orientation v m) = vertex_buffer_object_id m /\
     vertex_array_object_id (set_orientation v m) = vertex_array_object_id m /\
     element_buffer_object_id (set_orientation v m)
       = element_buffer_object_id m).
Proof.
  intros m v. repeat split.
Qed.

End TransformationFacts.

(* ------------------------------------------------------------------ *)
(** ** Perspective projection                                          *)
(* ------------------------------------------------------------------ *)

Section CameraFacts.
Import Eigen CameraUtils.
Local Open Scope R_scope.

Lemma ComputeCotangent_cot (a : R) : ComputeCotangent a = cot a.
Proof.
  unfold ComputeCotangent, kHalfPi, cot, tan.
  replace (0.5 * PI - a) with (PI / 2 - a) by lra.
  rewrite sin_shift, cos_shift. reflexivity.
Qed.

(** On the open interval [(0, pi/2)] the cotangent is the inverse
    of the tangent and is positive. *)
Lemma cot_inv_tan (a : R) : 0 < a < PI / 2 -> cot a = / tan a /\ 0 < cot a.
Proof.
  intros [Hlo Hhi].
  assert (Hs : 0 < sin a) by (apply sin_gt_0; lra).
  assert (Hc : 0 < cos a) by (apply cos_gt_0; lra).
  unfold cot, tan. split.
  - field. split; lra.
  - apply Rmult_lt_0_compat; [exact Hc | apply Rinv_0_lt_compat; exact Hs].
Qed.

(** The exact-arithmetic reading of the projection matrix (real numbers,
    [kHalfPi] exactly [pi / 2]).  For a field of view in [(0, pi)], a positive aspect ratio and
    [0 < near < far], the projection matrix has [cot(fov/2)/aspect] at
    [(0,0)], [cot(fov/2)] at [(1,1)], [-(near+far)/(far-near)] at [(2,2)],
    [-2*near*far/(far-near)] at [(2,3)], last row [(0, 0, -1, 0)] and zero
    everywhere else; on that domain [cot(fov/2)] is [1 / tan(fov/2)] and the
    divisors [aspect] and [far - near] are not zero. *)
Theorem ComputePerspectiveProjectionMatrix_entries :
  forall fov aspect near far : R,
    0 < fov < PI -> 0 < aspect -> 0 < near < far ->
    ComputePerspectiveProjectionMatrix fov aspect near far
    = Mat4 (Vec4 (cot (fov / 2) / aspect) 0 0 0)
           (Vec4 0 (cot (fov / 2)) 0 0)
           (Vec4 0 0 (- (near + far) / (far - near))
                     (- 2 * near * far / (far - near)))
           (Vec4 0 0 (-1) 0)
    /\ cot (fov / 2) = 1 / tan (fov / 2)
    /\ aspect <> 0 /\ far - near <> 0.
Proof.
  intros fov aspect near far Hfov Haspect Hplanes.
  split; [| split; [| split]].
  - unfold ComputePerspectiveProjectionMatrix.
    rewrite ComputeCotangent_cot.
    replace (0.5 * fov) with (fov / 2) by lra.
    repeat f_equal; lra.
  - destruct (cot_inv_tan (fov / 2)) as [E _]; [lra |].
    rewrite E. unfold Rdiv. ring.
  - lra.
  - lra.
Qed.

Lemma ComputePerspectiveProjectionMatrix_entries_witness :
  ComputePerspectiveProjectionMatrix (PI / 2) 1 1 2
  = Mat4 (Vec4 (cot (PI / 2 / 2) / 1) 0 0 0)
         (Vec4 0 (cot (PI / 2 / 2)) 0 0)
         (Vec4 0 0 (- (1 + 2) / (2 - 1)) (- 2 * 1 * 2 / (2 - 1)))
         (Vec4 0 0 (-1) 0)
  /\ cot (PI / 2 / 2) = 1 / tan (PI / 2 / 2)
  /\ 1 <> 0 /\ 2 - 1 <> 0.
Proof.
  apply (ComputePerspectiveProjectionMatrix_entries (PI / 2) 1 1 2).
  - split; [exact PI2_RGT_0 | exact PI2_Rlt_PI].
  - exact Rlt_0_1.
  - split; [exact Rlt_0_1 | lra].
Defined.

End CameraFacts.

(* ------------------------------------------------------------------ *)
(** ** Cross product                                                   *)
(* ------------------------------------------------------------------ *)

Section LinearAlgebraFacts.
Import Eigen Assignment.
Local Open Scope R_scope.

(** The cross product is the skew-symmetric matrix of the first operand
    applied to the second. *)
Lemma ComputeCrossProduct_skew (x y : Vector3f) :
  ComputeCrossProduct x y = mul3_vec (spec_skew x) y.
Proof.
  destruct x, y.
  unfold ComputeCrossProduct, cross, mul3_vec, spec_skew, dot3; cbn.
  f_equal; ring.
Qed.

Lemma det3_cross (x y : Vector3f) :
  det3 x y (ComputeCrossProduct x y)
  = ComputeDotProduct (ComputeCrossProduct x y) (ComputeCrossProduct x y).
Proof.
  destruct x, y. unfold GLfloat.
  unfold det3, ComputeDotProduct, ComputeCrossProduct, cross, dot3.
  cbn [x3 y3 z3]. ring.
Qed.

Lemma dot3_self_pos (v : Vector3f) : v <> Zero3 -> 0 < dot3 v v.
Proof.
  destruct v as [a b c]. unfold dot3, Zero3; cbn. intros H.
  destruct (Req_dec a 0) as [->|Ha]; [| nra].
  destruct (Req_dec b 0) as [->|Hb]; [| nra].
  destruct (Req_dec c 0) as [->|Hc]; [| nra].
  exfalso; apply H; reflexivity.
Qed.

(** The exact-arithmetic reading of the cross product (real numbers).
    The cross product is orthogonal to both operands; [(x, y, cross x y)]
    is a right-handed frame (its determinant is the squared norm of the
    product, positive unless the product vanishes); the cross product of the
    unit X and unit Y vectors is unit Z, whose dot product with unit Z is 1. *)
Theorem ComputeCrossProduct_orthogonal_right_handed :
  forall x y : Vector3f,
    ComputeDotProduct (ComputeCrossProduct x y) x = 0 /\
    ComputeDotProduct (ComputeCrossProduct x y) y = 0 /\
    0 <= det3 x y (ComputeCrossProduct x y) /\
    (ComputeCrossProduct x y <> Zero3 ->
     0 < det3 x y (ComputeCrossProduct x y)) /\
    ComputeCrossProduct UnitX UnitY = UnitZ /\
    ComputeDotProduct UnitZ (ComputeCrossProduct UnitX UnitY) = 1.
Proof.
  intros x y. unfold GLfloat.
  split; [| split; [| split; [| split; [| split]]]].
  - destruct x, y. unfold ComputeDotProduct, ComputeCrossProduct, cross, dot3.
    cbn [x3 y3 z3]. ring.
  - destruct x, y. unfold ComputeDotProduct, ComputeCrossProduct, cross, dot3.
    cbn [x3 y3 z3]. ring.
  - rewrite det3_cross. unfold ComputeDotProduct, dot3.
    destruct (ComputeCrossProduct x y) as [a b c]; cbn [x3 y3 z3]. nra.
  - intros H. rewrite det3_cross. apply dot3_self_pos. exact H.
  - unfold ComputeCrossProduct, cross, UnitX, UnitY, UnitZ; cbn [x3 y3 z3].
    f_equal; ring.
  - unfold ComputeDotProduct, ComputeCrossProduct, cross, dot3,
      UnitX, UnitY, UnitZ; cbn [x3 y3 z3]. ring.
Qed.

End LinearAlgebraFacts.

(* ------------------------------------------------------------------ *)
(** ** std::string helpers                                             *)
(* ------------------------------------------------------------------ *)

Section StringFacts.
Import StdString.

Lemma resize_length (n : nat) : forall s, String.length (resize n s) = n.
Proof.
  induction n as [|n IH]; intros s; [reflexivity |].
  destruct s; cbn [resize String.length]; rewrite IH; reflexivity.
Qed.

Lemma overwrite_length (src : string) :
  forall buf, String.length (overwrite src buf) = String.length buf.
Proof.
  induction src as [|c src IH]; intros buf; [destruct buf; reflexivity |].
  destruct buf; cbn [overwrite String.length]; [| rewrite IH]; reflexivity.
Qed.

Lemma write_c_str_length (text : string) (bufSize : nat) (buf : string) :
  String.length (write_c_str text bufSize buf) = String.length buf.
Proof.
  unfold write_c_str. destruct bufSize; [reflexivity |].
  apply overwrite_length.
Qed.

End StringFacts.

(* ------------------------------------------------------------------ *)
(** ** ShaderProgram                                                   *)
(* ------------------------------------------------------------------ *)

Section ShaderFacts.
Import GL StdString Shader.
Local Open Scope string_scope.

Variable drv : Driver.
Variable fs : string -> option string.

Ltac gl_unfold :=
  cbv beta iota zeta delta
    [bind ret emit fst snd
     glCreateShader glShaderSource glCompileShader glGetShaderiv
     glGetShaderInfoLog glDeleteShader glCreateProgram glAttachShader
     glLinkProgram glGetProgramiv glGetProgramInfoLog glDeleteProgram
     glUseProgram].

Ltac flatten_trace := repeat rewrite <- app_assoc; cbn [app].

(** *** What one stage does to the object *)

Lemma BuildVertexShader_frame (log : option string) (this : ShaderProgram)
  (tr : Trace) :
  let this' := snd (fst (BuildVertexShader drv log this tr)) in
  shader_program_id_ this' = shader_program_id_ this /\
  created_ this' = created_ this /\
  fragment_shader_ this' = fragment_shader_ this.
Proof. repeat split. Qed.

Lemma BuildFragmentShader_frame (log : option string) (this : ShaderProgram)
  (tr : Trace) :
  let this' := snd (fst (BuildFragmentShader drv log this tr)) in
  shader_program_id_ this' = shader_program_id_ this /\
  created_ this' = created_ this /\
  vertex_shader_ this' = vertex_shader_ this.
Proof. repeat split. Qed.

Lemma LinkProgram_frame (log : option string) (this : ShaderProgram)
  (tr : Trace) :
  let r := LinkProgram drv log this tr in
  fst (fst (fst r)) = negb (shader_program_id_ (snd (fst r)) =? 0)%N /\
  created_ (snd (fst r)) = created_ this.
Proof. repeat split. Qed.

(** *** [Create] by cases *)

Lemma Create_when_created (log : option string) (this : ShaderProgram)
  (tr : Trace) :
  created_ this = true -> Create drv log this tr = (true, log, this, tr).
Proof.
  intros H. unfold Create. rewrite H. reflexivity.
Qed.

Lemma Create_when_stage_fails (log : option string)
  (this this' : ShaderProgram) (tr tr' : Trace) (il : string) :
  created_ this = false ->
  StageFailure drv this tr this' il tr' ->
  Create drv log this tr = (false, assign_if_non_null log il, this', tr').
Proof.
  intros Hc HF. unfold Create. rewrite Hc.
  destruct HF as [p1 this1 tr1 E1
                 | p1 this1 tr1 p2 this2 tr2 E1 E2
                 | p1 this1 tr1 p2 this2 tr2 p3 this3 tr3 E1 E2 E3];
    unfold bind; rewrite E1; cbn [fst snd negb]; try reflexivity;
    rewrite E2; cbn [fst snd negb]; try reflexivity;
    rewrite E3; cbn [fst snd negb]; reflexivity.
Qed.

Lemma Create_when_stages_succeed (log : option string)
  (this this1 this2 this3 : ShaderProgram) (tr tr1 tr2 tr3 : Trace)
  (p1 p2 p3 : option string) :
  created_ this = false ->
  BuildVertexShader drv (Some "") this tr = (true, p1, this1, tr1) ->
  BuildFragmentShader drv (Some (after_call "" p1)) this1 tr1
    = (true, p2, this2, tr2) ->
  LinkProgram drv (Some (after_call (after_call "" p1) p2)) this2 tr2
    = (true, p3, this3, tr3) ->
  Create drv log this tr = (true, log, set_created_ true this3, tr3).
Proof.
  intros Hc E1 E2 E3. unfold Create. rewrite Hc.
  unfold bind; rewrite E1; cbn [fst snd negb].
  rewrite E2; cbn [fst snd negb]. rewrite E3; cbn [fst snd negb]. reflexivity.
Qed.

(** Either a stage fails or all three succeed. *)
Lemma Create_cases (log : option string) (this : ShaderProgram) (tr : Trace) :
  created_ this = false ->
  (exists this' il tr',
      StageFailure drv this tr this' il tr' /\
      Create drv log this tr = (false, assign_if_non_null log il, this', tr'))
  \/
  (exists this3 tr3,
      shader_program_id_ this3 <> 0%N /\
      created_ this3 = false /\
      Create drv log this tr = (true, log, set_created_ true this3, tr3)).
Proof.
  intros Hc.
  destruct (BuildVertexShader drv (Some "") this tr)
    as [[[ok1 p1] this1] tr1] eqn:E1.
  destruct ok1.
  2:{ left. exists this1, (after_call "" p1), tr1.
      assert (HF : StageFailure drv this tr this1 (after_call "" p1) tr1)
        by (apply vertex_stage_fails; exact E1).
      split; [exact HF | apply Create_when_stage_fails; assumption]. }
  destruct (BuildFragmentShader drv (Some (after_call "" p1)) this1 tr1)
    as [[[ok2 p2] this2] tr2] eqn:E2.
  destruct ok2.
  2:{ left. exists this2, (after_call (after_call "" p1) p2), tr2.
      assert (HF : StageFailure drv this tr this2
                     (after_call (after_call "" p1) p2) tr2)
        by (eapply fragment_stage_fails; eassumption).
      split; [exact HF | apply Create_when_stage_fails; assumption]. }
  destruct (LinkProgram drv (Some (after_call (after_call "" p1) p2)) this2 tr2)
    as [[[ok3 p3] this3] tr3] eqn:E3.
  destruct ok3.
  2:{ left. exists this3, (after_call (after_call (after_call "" p1) p2) p3), tr3.
      assert (HF : StageFailure drv this tr this3
                     (after_call (after_call (after_call "" p1) p2) p3) tr3)
        by (eapply link_stage_fails; eassumption).
      split; [exact HF | apply Create_when_stage_fails; assumption]. }
  right. exists this3, tr3.
  pose proof (LinkProgram_frame (Some (after_call (after_call "" p1) p2))
                this2 tr2) as [Hok Hcr].
  pose proof (BuildFragmentShader_frame (Some (after_call "" p1)) this1 tr1)
    as [_ [Hcr2 _]].
  pose proof (BuildVertexShader_frame (Some "") this tr) as [_ [Hcr1 _]].
  rewrite E3 in Hok, Hcr. rewrite E2 in Hcr2. rewrite E1 in Hcr1.
  cbn [fst snd] in *.
  split; [| split].
  - intros Hz. rewrite Hz in Hok. discriminate Hok.
  - congruence.
  - eapply Create_when_stages_succeed; eassumption.
Qed.

(** A failing stage leaves the program handle at zero when it was zero, and
    never sets [created_]. *)
Lemma StageFailure_handle (this this' : ShaderProgram) (tr tr' : Trace)
  (il : string) :
  StageFailure drv this tr this' il tr' ->
  shader_program_id_ this = 0%N ->
  shader_program_id_ this' = 0%N /\ created_ this' = created_ this.
Proof.
  intros HF Hid.
  destruct HF as [p1 this1 tr1 E1
                 | p1 this1 tr1 p2 this2 tr2 E1 E2
                 | p1 this1 tr1 p2 this2 tr2 p3 this3 tr3 E1 E2 E3].
  - pose proof (BuildVertexShader_frame (Some "") this tr) as [H1 [H2 _]].
    rewrite E1 in H1, H2. cbn [fst snd] in *. split; congruence.
  - pose proof (BuildVertexShader_frame (Some "") this tr) as [H1 [H2 _]].
    pose proof (BuildFragmentShader_frame (Some (after_call "" p1)) this1 tr1)
      as [H3 [H4 _]].
    rewrite E1 in H1, H2. rewrite E2 in H3, H4. cbn [fst snd] in *.
    split; congruence.
  - pose proof (BuildVertexShader_frame (Some "") this tr) as [_ [H2 _]].
    pose proof (BuildFragmentShader_frame (Some (after_call "" p1)) this1 tr1)
      as [_ [H4 _]].
    pose proof (LinkProgram_frame (Some (after_call (after_call "" p1) p2))
                  this2 tr2) as [H5 H6].
    rewrite E1 in H2. rewrite E2 in H4. rewrite E3 in H5, H6.
    cbn [fst snd] in *. split; [| congruence].
    destruct (shader_program_id_ this3 =? 0)%N eqn:Hz;
      [apply N.eqb_eq; exact Hz | discriminate H5].
Qed.

(** *** The invariant of client histories *)

Lemma Create_preserves_Inv (log : option string) (this : ShaderProgram)
  (tr : Trace) :
  Inv this ->
  let r := Create drv log this tr in
  Inv (snd (fst r)) /\
  created_ (snd (fst r)) = created_ this || fst (fst (fst r)).
Proof.
  unfold Inv. intros HI.
  destruct (created_ this) eqn:Hc.
  - rewrite (Create_when_created log this tr Hc). cbn [fst snd].
    rewrite Hc. split; [exact HI | reflexivity].
  - assert (Hid : shader_program_id_ this = 0%N).
    { destruct (shader_program_id_ this =? 0)%N eqn:Hz;
        [apply N.eqb_eq; exact Hz | discriminate HI]. }
    destruct (Create_cases log this tr Hc)
      as [(this' & il & tr' & HF & E) | (this3 & tr3 & Hnz & Hc3 & E)];
      rewrite E; cbn [fst snd orb].
    + destruct (StageFailure_handle _ _ _ _ _ HF Hid) as [Hid' Hc'].
      rewrite Hc', Hc, Hid'. split; reflexivity.
    + cbn [set_created_ created_ shader_program_id_].
      apply N.eqb_neq in Hnz. rewrite Hnz. split; reflexivity.
Qed.

Lemma exec_preserves_Inv (op : Op) (this : ShaderProgram) (tr : Trace) :
  Inv this ->
  let r := exec drv fs op this tr in
  Inv (snd (fst r)) /\
  created_ (snd (fst r)) = created_ this || (is_Create op && fst (fst r)).
Proof.
  intros HI. destruct op; cbn [exec is_Create andb].
  1-4: rewrite orb_false_r; split; [exact HI | reflexivity].
  - unfold bind, ret; cbn [fst snd].
    apply Create_preserves_Inv; exact HI.
  - unfold bind, ret; cbn [fst snd].
    rewrite orb_false_r; split; [exact HI | reflexivity].
Qed.

Lemma Reach_Inv (succeeded : bool) (this : ShaderProgram) (tr : Trace) :
  Reach drv fs succeeded this tr ->
  created_ this = succeeded /\ Inv this.
Proof.
  induction 1 as [tr | succeeded this tr op _ [IHc IHi]
                 | succeeded this tr calls _ IH].
  - split; reflexivity.
  - destruct (exec_preserves_Inv op this tr IHi) as [HI Hc].
    split; [rewrite Hc, IHc; reflexivity | exact HI].
  - exact IH.
Qed.
(** *** Calls made by one stage *)

Lemma shaders_created_app (a b : list Call) :
  shaders_created (a ++ b) = (shaders_created a ++ shaders_created b)%list.
Proof.
  induction a as [|c a IH]; [reflexivity |].
  destruct c; cbn [app shaders_created]; rewrite IH; reflexivity.
Qed.

Lemma shaders_deleted_app (a b : list Call) :
  shaders_deleted (a ++ b) = (shaders_deleted a ++ shaders_deleted b)%list.
Proof.
  induction a as [|c a IH]; [reflexivity |].
  destruct c; cbn [app shaders_deleted]; rewrite IH; reflexivity.
Qed.

(** [CompileShader] creates one shader name, deletes none, and returns either
    zero or the name it created, in which case [*info_log] is untouched. *)
Lemma CompileShader_calls (src : string) (ty : ShaderType)
  (log : option string) (tr : Trace) :
  let r := CompileShader drv src ty log tr in
  exists h calls,
    snd r = (tr ++ calls)%list /\
    calls <> [] /\
    shaders_created calls = [h] /\
    shaders_deleted calls = [] /\
    (fst (fst r) = 0%N \/ (fst (fst r) = h /\ snd (fst r) = log)).
Proof.
  unfold CompileShader.
  destruct ty; gl_unfold;
    match goal with
    | |- context [if ?c then _ else _] => destruct c
    end;
    try destruct log; gl_unfold;
    eexists; eexists;
    (split; [flatten_trace; reflexivity |]);
    (split; [discriminate |]);
    (split; [reflexivity |]);
    (split; [reflexivity |]);
    first [left; reflexivity | right; split; reflexivity].
Qed.

Lemma BuildVertexShader_calls (log : option string) (this : ShaderProgram)
  (tr : Trace) :
  let r := BuildVertexShader drv log this tr in
  exists h calls,
    snd r = (tr ++ calls)%list /\
    calls <> [] /\
    shaders_created calls = [h] /\
    shaders_deleted calls = [] /\
    (fst (fst (fst r)) = true -> vertex_shader_ (snd (fst r)) = h).
Proof.
  unfold BuildVertexShader, bind, ret. cbn [fst snd].
  destruct (CompileShader_calls (vertex_shader_src_ this) VERTEX log tr)
    as (h & calls & Htr & Hne & Hc & Hd & Hr).
  exists h, calls. repeat (split; [assumption |]).
  cbn [set_vertex_shader_ vertex_shader_].
  destruct Hr as [Hz | [Hh _]]; [rewrite Hz; discriminate | intros _; exact Hh].
Qed.

Lemma BuildFragmentShader_calls (log : option string) (this : ShaderProgram)
  (tr : Trace) :
  let r := BuildFragmentShader drv log this tr in
  exists h calls,
    snd r = (tr ++ calls)%list /\
    calls <> [] /\
    shaders_created calls = [h] /\
    shaders_deleted calls = [] /\
    (fst (fst (fst r)) = true -> fragment_shader_ (snd (fst r)) = h).
Proof.
  unfold BuildFragmentShader, bind, ret. cbn [fst snd].
  destruct (CompileShader_calls (fragment_shader_src_ this) FRAGMENT log tr)
    as (h & calls & Htr & Hne & Hc & Hd & Hr).
  exists h, calls. repeat (split; [assumption |]).
  cbn [set_fragment_shader_ fragment_shader_].
  destruct Hr as [Hz | [Hh _]]; [rewrite Hz; discriminate | intros _; exact Hh].
Qed.

(** [LinkProgram] creates no shader and passes both stored shader names to
    [glDeleteShader], whether linking succeeds or not. *)
Lemma LinkProgram_calls (log : option string) (this : ShaderProgram)
  (tr : Trace) :
  let r := LinkProgram drv log this tr in
  exists calls,
    snd r = (tr ++ calls)%list /\
    calls <> [] /\
    shaders_created calls = [] /\
    shaders_deleted calls = [vertex_shader_ this; fragment_shader_ this].
Proof.
  unfold LinkProgram, CreateShaderProgram, ReleaseShaderResources.
  gl_unfold.
  match goal with
  | |- context [if ?c then _ else _] => destruct c
  end;
    try destruct log; gl_unfold;
    cbn [set_shader_program_id_ vertex_shader_ fragment_shader_];
    eexists;
    (split; [flatten_trace; reflexivity |]);
    (split; [discriminate |]);
    split; reflexivity.
Qed.

(** *** Shader handles on the paths of [Create] *)

(** When a compile stage fails, [Create] returns without a single
    [glDeleteShader], although at least one shader name was created. *)
Lemma Create_compile_failure_deletes_nothing (log : option string)
  (this : ShaderProgram) (tr : Trace) :
  created_ this = false ->
  fst (fst (fst (BuildVertexShader drv (Some "") this tr))) = false \/
  fst (fst (fst (BuildFragmentShader drv
     (Some (after_call "" (snd (fst (fst (BuildVertexShader drv (Some "") this tr))))))
     (snd (fst (BuildVertexShader drv (Some "") this tr)))
     (snd (BuildVertexShader drv (Some "") this tr))))) = false ->
  exists calls,
    snd (Create drv log this tr) = (tr ++ calls)%list /\
    shaders_created calls <> [] /\
    shaders_deleted calls = [].
Proof.
  intros Hc Hfail.
  destruct (BuildVertexShader_calls (Some "") this tr)
    as (h1 & c1 & Ht1 & _ & Hc1 & Hd1 & _).
  destruct (BuildVertexShader drv (Some "") this tr)
    as [[[ok1 p1] this1] tr1] eqn:E1.
  cbn [fst snd] in *.
  destruct ok1.
  - destruct Hfail as [Hf | Hf]; [discriminate Hf |].
    destruct (BuildFragmentShader_calls (Some (after_call "" p1)) this1 tr1)
      as (h2 & c2 & Ht2 & _ & Hc2 & Hd2 & _).
    destruct (BuildFragmentShader drv (Some (after_call "" p1)) this1 tr1)
      as [[[ok2 p2] this2] tr2] eqn:E2.
    cbn [fst snd] in *. subst ok2.
    rewrite (Create_when_stage_fails log this this2 tr tr2
               (after_call (after_call "" p1) p2) Hc)
      by (eapply fragment_stage_fails; eassumption).
    cbn [snd]. exists (c1 ++ c2)%list.
    rewrite Ht2, Ht1, app_assoc, shaders_created_app, shaders_deleted_app,
      Hc1, Hc2, Hd1, Hd2.
    split; [reflexivity | split; [discriminate | reflexivity]].
  - rewrite (Create_when_stage_fails log this this1 tr tr1 (after_call "" p1) Hc)
      by (apply vertex_stage_fails; exact E1).
    cbn [snd]. exists c1. rewrite Hc1, Hd1.
    split; [exact Ht1 | split; [discriminate | reflexivity]].
Qed.

(** X27.  When both compile stages succeed, the link stage runs and every shader
    name created is passed to [glDeleteShader], whether linking succeeds or
    fails. *)
Lemma Create_link_reached_deletes_all (log : option string)
  (this this1 this2 : ShaderProgram) (tr tr1 tr2 : Trace)
  (p1 p2 : option string) :
  created_ this = false ->
  BuildVertexShader drv (Some "") this tr = (true, p1, this1, tr1) ->
  BuildFragmentShader drv (Some (after_call "" p1)) this1 tr1
    = (true, p2, this2, tr2) ->
  exists calls,
    snd (Create drv log this tr) = (tr ++ calls)%list /\
    shaders_created calls = [vertex_shader_ this2; fragment_shader_ this2] /\
    shaders_deleted calls = shaders_created calls.
Proof.
  intros Hc E1 E2.
  destruct (BuildVertexShader_calls (Some "") this tr)
    as (h1 & c1 & Ht1 & _ & Hc1 & Hd1 & Hv).
  destruct (BuildFragmentShader_calls (Some (after_call "" p1)) this1 tr1)
    as (h2 & c2 & Ht2 & _ & Hc2 & Hd2 & Hf).
  destruct (LinkProgram_calls (Some (after_call (after_call "" p1) p2)) this2 tr2)
    as (c3 & Ht3 & _ & Hc3 & Hd3).
  pose proof (BuildFragmentShader_frame (Some (after_call "" p1)) this1 tr1)
    as [_ [_ Hvs]].
  rewrite E1 in Ht1, Hv. rewrite E2 in Ht2, Hf, Hvs. cbn [fst snd] in *.
  specialize (Hv eq_refl). specialize (Hf eq_refl).
  assert (Htrace : snd (Create drv log this tr)
                   = snd (LinkProgram drv
                            (Some (after_call (after_call "" p1) p2)) this2 tr2)).
  { destruct (LinkProgram drv (Some (after_call (after_call "" p1) p2)) this2 tr2)
      as [[[ok3 p3] this3] tr3] eqn:E3.
    destruct ok3.
    - rewrite (Create_when_stages_succeed log this this1 this2 this3
                 tr tr1 tr2 tr3 p1 p2 p3 Hc E1 E2 E3). reflexivity.
    - rewrite (Create_when_stage_fails log this this3 tr tr3
                 (after_call (after_call (after_call "" p1) p2) p3) Hc)
        by (eapply link_stage_fails; eassumption).
      reflexivity. }
  exists (c1 ++ c2 ++ c3)%list.
  rewrite Htrace, Ht3, Ht2, Ht1.
  rewrite !shaders_created_app, !shaders_deleted_app,
    Hc1, Hc2, Hc3, Hd1, Hd2, Hd3.
  cbn [app]. rewrite Hvs, Hv, Hf.
  split; [rewrite <- !app_assoc; reflexivity | split; reflexivity].
Qed.

(** Every stage makes at least one OpenGL call: a trace that is unchanged
    after a stage's predecessor returned shows the stage was not run. *)
Lemma stages_make_calls (log : option string) (this : ShaderProgram)
  (tr : Trace) :
  snd (BuildVertexShader drv log this tr) <> tr /\
  snd (BuildFragmentShader drv log this tr) <> tr /\
  snd (LinkProgram drv log this tr) <> tr.
Proof.
  destruct (BuildVertexShader_calls log this tr) as (? & c1 & H1 & N1 & _).
  destruct (BuildFragmentShader_calls log this tr) as (? & c2 & H2 & N2 & _).
  destruct (LinkProgram_calls log this tr) as (c3 & H3 & N3 & _).
  cbv zeta in *. rewrite H1, H2, H3.
  assert (G : forall c : list Call, c <> [] -> (tr ++ c)%list <> tr).
  { intros c Hne E. apply Hne.
    apply (app_inv_head tr). rewrite app_nil_r. exact E. }
  auto.
Qed.

(** When the driver reports a failed compilation or link (status zero, or
    an error that leaves the status variable untouched), the info log the
    stage leaves behind has [kNumCharsInfoLog] characters. *)
Lemma CompileShader_failure_log (src : string) (ty : ShaderType)
  (buf : string) (tr : Trace) :
  let r := CompileShader drv src ty (Some buf) tr in
  fst (fst r) = 0%N ->
  (exists s, snd (fst r) = Some s /\ String.length s = kNumCharsInfoLog) \/
  (snd (fst r) = Some buf /\
   create_shader drv tr
     match ty with
     | VERTEX => GL_VERTEX_SHADER
     | FRAGMENT => GL_FRAGMENT_SHADER
     end = 0%N).
Proof.
  unfold CompileShader.
  destruct ty; gl_unfold;
    match goal with
    | |- context [if ?c then _ else _] => destruct c
    end; gl_unfold; intros H.
  all: try (right; split; [reflexivity | exact H]).
  all: left; eexists; split; [reflexivity |].
  all: match goal with
       | |- context [match ?o with Some _ => _ | None => _ end] => destruct o
       end;
       rewrite ?write_c_str_length, resize_length; reflexivity.
Qed.
(** *** [Create], [Use] and the destructor over client histories *)

(** On an object on which [Create] never succeeded, when one of the
    three stages fails, [Create] returns [false], the caller's string holds
    the info log of the failing stage, the object and the call trace are
    those the failing stage left (no later stage is run), and
    [shader_program_id()] is zero. *)
Theorem Create_failure_aborts_and_reports :
  forall (this this' : ShaderProgram) (tr tr' : Trace)
         (caller_log il : string),
    Reach drv fs false this tr ->
    StageFailure drv this tr this' il tr' ->
    Create drv (Some caller_log) this tr = (false, Some il, this', tr') /\
    shader_program_id this' = 0%N.
Proof.
  intros this this' tr tr' caller_log il HR HF.
  destruct (Reach_Inv false this tr HR) as [Hc HI].
  split.
  - apply (Create_when_stage_fails (Some caller_log) this this' tr tr' il Hc HF).
  - unfold Inv in HI. rewrite Hc in HI.
    apply (StageFailure_handle this this' tr tr' il HF).
    destruct (shader_program_id_ this =? 0)%N eqn:Hz;
      [apply N.eqb_eq; exact Hz | discriminate HI].
Qed.

(** C4.  On an object on which a [Create] call has returned [true], [Create]
    returns [true], makes no OpenGL call, and leaves the object (and with it
    the program handle) and the caller's string as they were. *)
Theorem Create_idempotent_after_success :
  forall (this : ShaderProgram) (tr : Trace) (log : option string),
    Reach drv fs true this tr ->
    Create drv log this tr = (true, log, this, tr).
Proof.
  intros this tr log HR.
  destruct (Reach_Inv true this tr HR) as [Hc _].
  apply Create_when_created. exact Hc.
Qed.

(** C5.  [Use()] returns [false] and makes no OpenGL call on an object on
    which no [Create] call has returned [true]; on an object on which one
    has, it calls [glUseProgram] on the program handle and returns [true]. *)
Theorem Use_follows_Create :
  forall (succeeded : bool) (this : ShaderProgram) (tr : Trace),
    Reach drv fs succeeded this tr ->
    Use this tr
    = if succeeded
      then (true, (tr ++ [Ev_glUseProgram (shader_program_id this)])%list)
      else (false, tr).
Proof.
  intros succeeded this tr HR.
  destruct (Reach_Inv succeeded this tr HR) as [Hc _].
  unfold Use. rewrite Hc. destruct succeeded; reflexivity.
Qed.

(** C9.  After the constructor and any sequence of the public operations,
    [created_] is [true] exactly when [shader_program_id_] is not zero, and
    the destructor calls [glDeleteProgram] exactly in that case. *)
Theorem created_iff_program_handle :
  forall (succeeded : bool) (this : ShaderProgram) (tr : Trace),
    Reach drv fs succeeded this tr ->
    (created_ this = true <-> shader_program_id_ this <> 0%N) /\
    Destroy this tr
    = (tt, if (shader_program_id_ this =? 0)%N then tr
           else (tr ++ [Ev_glDeleteProgram (shader_program_id_ this)])%list).
Proof.
  intros succeeded this tr HR.
  destruct (Reach_Inv succeeded this tr HR) as [_ HI].
  unfold Inv in HI. unfold Destroy. rewrite HI.
  destruct (shader_program_id_ this =? 0)%N eqn:Hz; cbn [negb].
  - apply N.eqb_eq in Hz. split; [| reflexivity].
    split; [discriminate | intros H; exfalso; apply H; exact Hz].
  - apply N.eqb_neq in Hz. split; [| reflexivity].
    split; [intros _; exact Hz | reflexivity].
Qed.

End ShaderFacts.

(* ------------------------------------------------------------------ *)
(** ** Concrete runs                                                   *)
(* ------------------------------------------------------------------ *)

Section ShaderRuns.
Import GL StdString Shader.
Local Open Scope string_scope.

Lemma Reach_valid_program (drv : Driver) (fs : string -> option string) :
  Reach drv fs false valid_program [].
Proof.
  exact (Reach_op drv fs _ _ _
           (OpLoadFragmentShaderFromString fragment_shader_src)
           (Reach_op drv fs _ _ _
              (OpLoadVertexShaderFromString vertex_shader_src)
              (Reach_ctor drv fs []))).
Qed.

Lemma Reach_invalid_program (drv : Driver) (fs : string -> option string) :
  Reach drv fs false invalid_program [].
Proof.
  exact (Reach_op drv fs _ _ _
           (OpLoadFragmentShaderFromString bad_fragment_shader)
           (Reach_op drv fs _ _ _
              (OpLoadVertexShaderFromString bad_vertex_shader)
              (Reach_ctor drv fs []))).
Qed.

Lemma Reach_created_run :
  Reach (toy_driver true) no_files true
        (snd (fst created_run)) (snd created_run).
Proof.
  pose proof (Reach_op (toy_driver true) no_files _ _ _ (OpCreate None)
                (Reach_valid_program (toy_driver true) no_files)) as H.
  vm_compute in H. vm_compute. exact H.
Qed.

(** The run the valid-sources test makes: [Create] succeeds and the handle
    is not zero. *)
Example created_run_succeeds :
  fst (fst (fst created_run)) = true /\
  shader_program_id (snd (fst created_run)) = 3%N /\
  shaders_created (snd created_run) = [1%N; 2%N] /\
  shaders_deleted (snd created_run) = [1%N; 2%N].
Proof. vm_compute. repeat split. Qed.

(** C2.  With a vertex source that does not compile, [Create] returns
    [false] after [glCreateShader] handed out the name 1 and without any
    [glDeleteShader]; with a fragment source that does not compile, the
    names 1 and 2 were handed out and none is deleted.  (When linking fails,
    both names are deleted.) *)
Theorem Create_compile_failure_leaks_shaders :
  let vertex_failure := Create (toy_driver true) (Some "") invalid_program [] in
  let fragment_failure :=
    Create (toy_driver true) (Some "") invalid_fragment_program [] in
  let link_failure := Create (toy_driver false) (Some "") valid_program [] in
  (fst (fst (fst vertex_failure)) = false /\
   shaders_created (snd vertex_failure) = [1%N] /\
   shaders_deleted (snd vertex_failure) = []) /\
  (fst (fst (fst fragment_failure)) = false /\
   shaders_created (snd fragment_failure) = [1%N; 2%N] /\
   shaders_deleted (snd fragment_failure) = []) /\
  (fst (fst (fst link_failure)) = false /\
   shaders_created (snd link_failure) = [1%N; 2%N] /\
   shaders_deleted (snd link_failure) = [1%N; 2%N]).
Proof. vm_compute. repeat split. Qed.

Lemma Create_failure_aborts_and_reports_witness :
  let drv := toy_driver true in
  let r := BuildVertexShader drv (Some "") invalid_program [] in
  Create drv (Some "caller text") invalid_program []
  = (false, Some (after_call "" (snd (fst (fst r)))), snd (fst r), snd r) /\
  shader_program_id (snd (fst r)) = 0%N.
Proof.
  intros drv r.
  apply (Create_failure_aborts_and_reports drv no_files
           invalid_program (snd (fst r)) [] (snd r)
           "caller text" (after_call "" (snd (fst (fst r))))).
  - exact (Reach_invalid_program drv no_files).
  - apply vertex_stage_fails. vm_compute. reflexivity.
Defined.

Lemma Create_idempotent_after_success_witness :
  Create (toy_driver true) (Some "caller text")
         (snd (fst created_run)) (snd created_run)
  = (true, Some "caller text", snd (fst created_run), snd created_run).
Proof.
  apply (Create_idempotent_after_success (toy_driver true) no_files
           (snd (fst created_run)) (snd created_run) (Some "caller text")).
  exact Reach_created_run.
Defined.

Lemma Use_follows_Create_witness :
  Use (snd (fst created_run)) (snd created_run)
  = (true,
     (snd created_run
        ++ [Ev_glUseProgram (shader_program_id (snd (fst created_run)))])%list).
Proof.
  apply (Use_follows_Create (toy_driver true) no_files true
           (snd (fst created_run)) (snd created_run)).
  exact Reach_created_run.
Defined.

Lemma created_iff_program_handle_witness :
  (created_ (snd (fst created_run)) = true
   <-> shader_program_id_ (snd (fst created_run)) <> 0%N) /\
  Destroy (snd (fst created_run)) (snd created_run)
  = (tt, if (shader_program_id_ (snd (fst created_run)) =? 0)%N
         then snd created_run
         else (snd created_run
                 ++ [Ev_glDeleteProgram
                       (shader_program_id_ (snd (fst created_run)))])%list).
Proof.
  apply (created_iff_program_handle (toy_driver true) no_files true
           (snd (fst created_run)) (snd created_run)).
  exact Reach_created_run.
Defined.

End ShaderRuns.

(* ================================================================== *)
(** * Further properties of the code                                   *)
(* ================================================================== *)

(* ------------------------------------------------------------------ *)
(** ** transformations.cc and model.cc                                 *)
(* ------------------------------------------------------------------ *)

Section PlaceholderLaws.
Import Eigen Transformations ModelClass.
Local Open Scope R_scope.

(** X14.  [ComputeRotationMatrix] and [ComputeScalingMatrix] return a matrix that
    does not depend on their arguments and has every coefficient in
    [[-1, 1]]; so for a scale factor above 1 the diagonal of the result of
    [ComputeScalingMatrix] never holds that factor. *)
Theorem rotation_and_scaling_are_random :
  forall (axis axis' : Vector3f) (angle angle' scale scale' : R)
         (s : RandState) (i j : nat),
    1 < scale ->
    ComputeRotationMatrix axis angle s = ComputeRotationMatrix axis' angle' s /\
    ComputeScalingMatrix scale s = ComputeScalingMatrix scale' s /\
    -1 <= coeff (fst (ComputeRotationMatrix axis angle s)) i j <= 1 /\
    -1 <= coeff (fst (ComputeScalingMatrix scale s)) i j <= 1 /\
    coeff (fst (ComputeScalingMatrix scale s)) i i <> scale.
Proof.
  intros axis axis' angle angle' scale scale' s i j Hs.
  unfold ComputeRotationMatrix, ComputeScalingMatrix.
  split; [reflexivity | split; [reflexivity |]].
  split; [apply Random4f_coeff_range | split; [apply Random4f_coeff_range |]].
  pose proof (Random4f_coeff_range s i i) as B. lra.
Qed.

Lemma rotation_and_scaling_are_random_witness :
  ComputeRotationMatrix UnitZ 1 (MkRand (fun _ => 0%Z) 0)
  = ComputeRotationMatrix UnitX 2 (MkRand (fun _ => 0%Z) 0) /\
  ComputeScalingMatrix 2 (MkRand (fun _ => 0%Z) 0)
  = ComputeScalingMatrix 3 (MkRand (fun _ => 0%Z) 0) /\
  -1 <= coeff (fst (ComputeRotationMatrix UnitZ 1 (MkRand (fun _ => 0%Z) 0)))
          0 0 <= 1 /\
  -1 <= coeff (fst (ComputeScalingMatrix 2 (MkRand (fun _ => 0%Z) 0))) 0 0 <= 1 /\
  coeff (fst (ComputeScalingMatrix 2 (MkRand (fun _ => 0%Z) 0))) 0 0 <> 2.
Proof.
  apply (rotation_and_scaling_are_random UnitZ UnitX 1 2 2 3
           (MkRand (fun _ => 0%Z) 0) 0 0).
  lra.
Defined.

Lemma apply_op_frame (op : ModelOp) (st : Model * RandState) :
  vertices (fst (apply_op op st)) = vertices (fst st) /\
  indices (fst (apply_op op st)) = indices (fst st) /\
  vertex_buffer_object_id (fst (apply_op op st))
  = vertex_buffer_object_id (fst st) /\
  vertex_array_object_id (fst (apply_op op st))
  = vertex_array_object_id (fst st) /\
  element_buffer_object_id (fst (apply_op op st))
  = element_buffer_object_id (fst st).
Proof. destruct op; repeat split. Qed.

(** X15.  Whatever sequence of [ComputeModelMatrix], [SetVerticesIntoGpu], [Draw]
    and the two setters is applied to a freshly constructed [Model], the
    vertices and indices stay those given to the constructor and the three
    buffer ids stay zero: nothing is ever uploaded. *)
Theorem Model_buffers_stay_zero :
  forall (o p : Vector3f) (vs : MatrixXf) (ids : list GLuint)
         (ops : list ModelOp) (s : RandState),
    let m3 := fst (apply_ops ops (Model3 o p vs, s)) in
    let m4 := fst (apply_ops ops (Model4 o p vs ids, s)) in
    (vertices m3 = vs /\ indices m3 = [] /\
     vertex_buffer_object_id m3 = 0%N /\ vertex_array_object_id m3 = 0%N /\
     element_buffer_object_id m3 = 0%N) /\
    (vertices m4 = vs /\ indices m4 = ids /\
     vertex_buffer_object_id m4 = 0%N /\ vertex_array_object_id m4 = 0%N /\
     element_buffer_object_id m4 = 0%N).
Proof.
  intros o p vs ids ops s.
  assert (G : forall ops st,
             vertices (fst (apply_ops ops st)) = vertices (fst st) /\
             indices (fst (apply_ops ops st)) = indices (fst st) /\
             vertex_buffer_object_id (fst (apply_ops ops st))
             = vertex_buffer_object_id (fst st) /\
             vertex_array_object_id (fst (apply_ops ops st))
             = vertex_array_object_id (fst st) /\
             element_buffer_object_id (fst (apply_ops ops st))
             = element_buffer_object_id (fst st)).
  { clear. induction ops as [|op ops IH]; intros st; [repeat split |].
    unfold apply_ops in *. cbn [fold_left].
    destruct (IH (apply_op op st)) as (H1 & H2 & H3 & H4 & H5).
    destruct (apply_op_frame op st) as (F1 & F2 & F3 & F4 & F5).
    repeat split; congruence. }
  split; [apply (G ops (Model3 o p vs, s)) | apply (G ops (Model4 o p vs ids, s))].
Qed.

End PlaceholderLaws.

(* ------------------------------------------------------------------ *)
(** ** shader_program.cc                                               *)
(* ------------------------------------------------------------------ *)

Section ShaderLaws.
Import GL StdString Shader.
Local Open Scope string_scope.

Variable drv : Driver.
Variable fs : string -> option string.

Ltac gl_cbv :=
  cbv beta iota zeta delta
    [bind ret emit fst snd
     glCreateShader glShaderSource glCompileShader glGetShaderiv
     glGetShaderInfoLog glDeleteShader glCreateProgram glAttachShader
     glLinkProgram glGetProgramiv glGetProgramInfoLog glDeleteProgram
     glUseProgram].

Ltac flatten := repeat rewrite <- app_assoc; cbn [app].

(** *** The stages, when they succeed *)

Lemma CompileShader_nonzero (src : string) (ty : ShaderType)
  (log : option string) (tr : Trace) :
  let r := CompileShader drv src ty log tr in
  let type := match ty with
              | VERTEX => GL_VERTEX_SHADER
              | FRAGMENT => GL_FRAGMENT_SHADER
              end in
  fst (fst r) <> 0%N ->
  r = (fst (fst r), log,
       (tr ++ [Ev_glCreateShader type (fst (fst r));
               Ev_glShaderSource (fst (fst r)) src;
               Ev_glCompileShader (fst (fst r));
               Ev_glGetShaderiv (fst (fst r))])%list).
Proof.
  unfold CompileShader.
  destruct ty; gl_cbv;
    match goal with
    | |- context [if ?c then _ else _] => destruct c
    end;
    try destruct log; gl_cbv; intros H;
    try (exfalso; apply H; reflexivity);
    flatten; reflexivity.
Qed.

Lemma CreateShaderProgram_nonzero (v f : GLuint) (log : option string)
  (tr : Trace) :
  let r := CreateShaderProgram drv v f log tr in
  fst (fst r) <> 0%N ->
  r = (fst (fst r), log,
       (tr ++ [Ev_glCreateProgram (fst (fst r));
               Ev_glAttachShader (fst (fst r)) v;
               Ev_glAttachShader (fst (fst r)) f;
               Ev_glLinkProgram (fst (fst r));
               Ev_glGetProgramiv (fst (fst r))])%list).
Proof.
  unfold CreateShaderProgram. gl_cbv.
  match goal with
  | |- context [if ?c then _ else _] => destruct c
  end;
    try destruct log; gl_cbv; intros H;
    try (exfalso; apply H; reflexivity);
    flatten; reflexivity.
Qed.

(** [Create] on an object that is not created, written over the three
    helper calls. *)
Lemma Create_unfold (log : option string) (this : ShaderProgram) (tr : Trace) :
  created_ this = false ->
  Create drv log this tr
  = let c1 := CompileShader drv (vertex_shader_src_ this) VERTEX (Some "") tr in
    let log1 := after_call "" (snd (fst c1)) in
    let this1 := set_vertex_shader_ (fst (fst c1)) this in
    if (fst (fst c1) =? 0)%N
    then (false, assign_if_non_null log log1, this1, snd c1)
    else
      let c2 := CompileShader drv (fragment_shader_src_ this) FRAGMENT
                  (Some log1) (snd c1) in
      let log2 := after_call log1 (snd (fst c2)) in
      let this2 := set_fragment_shader_ (fst (fst c2)) this1 in
      if (fst (fst c2) =? 0)%N
      then (false, assign_if_non_null log log2, this2, snd c2)
      else
        let c3 := CreateShaderProgram drv (fst (fst c1)) (fst (fst c2))
                    (Some log2) (snd c2) in
        let log3 := after_call log2 (snd (fst c3)) in
        let this3 := set_shader_program_id_ (fst (fst c3)) this2 in
        let tr3 := (snd c3 ++ [Ev_glDeleteShader (fst (fst c1));
                               Ev_glDeleteShader (fst (fst c2))])%list in
        if (fst (fst c3) =? 0)%N
        then (false, assign_if_non_null log log3, this3, tr3)
        else (true, log, set_created_ true this3, tr3).
Proof.
  intros Hc.
  unfold Create, BuildVertexShader, BuildFragmentShader, LinkProgram,
    ReleaseShaderResources, glDeleteShader, emit, bind, ret.
  rewrite Hc. cbv zeta.
  cbn [fst snd set_vertex_shader_ set_fragment_shader_ set_shader_program_id_
       vertex_shader_ fragment_shader_ shader_program_id_
       vertex_shader_src_ fragment_shader_src_].
  destruct (fst (fst (CompileShader drv (vertex_shader_src_ this) VERTEX
                        (Some "") tr)) =? 0)%N; cbn [negb]; [reflexivity |].
  match goal with
  | |- context [(fst (fst ?c) =? 0)%N] =>
      destruct (fst (fst c) =? 0)%N; cbn [negb]; [reflexivity |]
  end.
  match goal with
  | |- context [(fst (fst ?c) =? 0)%N] =>
      destruct (fst (fst c) =? 0)%N; cbn [negb]
  end; flatten; reflexivity.
Qed.

(** *** Loading sources *)

(** X16.  Loading from a file that cannot be opened returns [false] and leaves the
    object as it was; loading from a file that can be opened returns [true]
    and has the effect of loading its text from a string. *)
Theorem LoadShaderFromFile_behaviour :
  forall (path : string) (this : ShaderProgram),
    match fs path with
    | None =>
        LoadVertexShaderFromFile fs path this = (false, this) /\
        LoadFragmentShaderFromFile fs path this = (false, this)
    | Some text =>
        LoadVertexShaderFromFile fs path this
        = LoadVertexShaderFromString text this /\
        LoadFragmentShaderFromFile fs path this
        = LoadFragmentShaderFromString text this /\
        fst (LoadVertexShaderFromFile fs path this) = true /\
        fst (LoadFragmentShaderFromFile fs path this) = true
    end.
Proof.
  intros path this.
  unfold LoadVertexShaderFromFile, LoadFragmentShaderFromFile,
    LoadShaderFromFile, LoadVertexShaderFromString,
    LoadFragmentShaderFromString.
  destruct (fs path) as [text |]; cbn [fst snd after_call];
    destruct this; repeat split.
Qed.

(** X17.  Whatever was loaded before, [Create] on an object that is not created
    starts by creating a vertex shader and handing the driver the vertex
    source loaded last; the sources themselves are never altered by
    [Create]. *)
Theorem Create_compiles_the_loaded_source :
  forall (this : ShaderProgram) (vsrc : string) (log : option string)
         (tr : Trace),
    created_ this = false ->
    let loaded := snd (LoadVertexShaderFromString vsrc this) in
    let r := Create drv log loaded tr in
    (exists h rest,
        snd r = (tr ++ Ev_glCreateShader GL_VERTEX_SHADER h
                    :: Ev_glShaderSource h vsrc
                    :: Ev_glCompileShader h
                    :: Ev_glGetShaderiv h :: rest)%list) /\
    vertex_shader_src_ (snd (fst r)) = vsrc /\
    fragment_shader_src_ (snd (fst r)) = fragment_shader_src_ this.
Proof.
  intros this vsrc log tr Hc loaded r. subst r loaded.
  unfold LoadVertexShaderFromString. cbn [snd].
  rewrite Create_unfold by exact Hc.
  cbn [set_vertex_shader_src_ vertex_shader_src_ fragment_shader_src_].
  cbv zeta.
  set (c1 := CompileShader drv vsrc VERTEX (Some "") tr).
  assert (H1 : exists h rest,
             snd c1 = (tr ++ Ev_glCreateShader GL_VERTEX_SHADER h
                          :: Ev_glShaderSource h vsrc
                          :: Ev_glCompileShader h
                          :: Ev_glGetShaderiv h :: rest)%list).
  { subst c1. unfold CompileShader. gl_cbv.
    match goal with
    | |- context [if ?c then _ else _] => destruct c
    end; gl_cbv; eexists; eexists; flatten; reflexivity. }
  destruct H1 as (h & rest1 & E1).
  destruct (fst (fst c1) =? 0)%N.
  { cbn [fst snd]. split; [| split; reflexivity].
    exists h, rest1. exact E1. }
  match goal with
  | |- context [CompileShader drv ?s FRAGMENT ?l (snd c1)] =>
      set (c2 := CompileShader drv s FRAGMENT l (snd c1))
  end.
  destruct (CompileShader_calls drv (fragment_shader_src_ this) FRAGMENT
              (Some (after_call "" (snd (fst c1)))) (snd c1))
    as (h2 & calls2 & E2 & _).
  fold c2 in E2.
  destruct (fst (fst c2) =? 0)%N.
  { cbn [fst snd]. split; [| split; reflexivity].
    exists h, (rest1 ++ calls2)%list. rewrite E2, E1. flatten. reflexivity. }
  match goal with
  | |- context [CreateShaderProgram drv ?a ?b ?l (snd c2)] =>
      set (c3 := CreateShaderProgram drv a b l (snd c2))
  end.
  assert (E3 : exists calls3, snd c3 = (snd c2 ++ calls3)%list).
  { subst c3. unfold CreateShaderProgram. gl_cbv.
    match goal with
    | |- context [if ?c then _ else _] => destruct c
    end; gl_cbv; eexists; flatten; reflexivity. }
  destruct E3 as (calls3 & E3).
  destruct (fst (fst c3) =? 0)%N; cbn [fst snd];
    (split; [| split; reflexivity]);
    eexists h, _; rewrite E3, E2, E1; flatten; reflexivity.
Qed.

(** *** What a successful [Create] does *)

(** X18.  When [Create] returns [true] on an object that was not created, it has
    made exactly fifteen calls: create, source, compile and query for the
    vertex and then the fragment shader, create the program, attach both
    shaders, link, query, and delete both shaders.  The three names are not
    zero, they are stored in the object, [created_] is set and the caller's
    string is untouched. *)
Theorem Create_success_trace :
  forall (this : ShaderProgram) (log : option string) (tr : Trace),
    created_ this = false ->
    fst (fst (fst (Create drv log this tr))) = true ->
    exists v f p : GLuint,
      v <> 0%N /\ f <> 0%N /\ p <> 0%N /\
      Create drv log this tr
      = (true, log,
         MkShaderProgram (vertex_shader_src_ this) (fragment_shader_src_ this)
           v f p true,
         (tr ++ [Ev_glCreateShader GL_VERTEX_SHADER v;
                 Ev_glShaderSource v (vertex_shader_src_ this);
                 Ev_glCompileShader v;
                 Ev_glGetShaderiv v;
                 Ev_glCreateShader GL_FRAGMENT_SHADER f;
                 Ev_glShaderSource f (fragment_shader_src_ this);
                 Ev_glCompileShader f;
                 Ev_glGetShaderiv f;
                 Ev_glCreateProgram p;
                 Ev_glAttachShader p v;
                 Ev_glAttachShader p f;
                 Ev_glLinkProgram p;
                 Ev_glGetProgramiv p;
                 Ev_glDeleteShader v;
                 Ev_glDeleteShader f])%list).
Proof.
  intros this log tr Hc.
  rewrite Create_unfold by exact Hc. cbv zeta.
  set (c1 := CompileShader drv (vertex_shader_src_ this) VERTEX (Some "") tr).
  destruct (N.eqb_spec (fst (fst c1)) 0) as [_ | N1];
    [cbn [fst]; discriminate |].
  pose proof (CompileShader_nonzero (vertex_shader_src_ this) VERTEX
                (Some "") tr N1) as E1.
  fold c1 in E1. cbv zeta in E1.
  assert (L1 : snd (fst c1) = Some "") by (rewrite E1; reflexivity).
  assert (T1 : snd c1
               = (tr ++ [Ev_glCreateShader GL_VERTEX_SHADER (fst (fst c1));
                         Ev_glShaderSource (fst (fst c1)) (vertex_shader_src_ this);
                         Ev_glCompileShader (fst (fst c1));
                         Ev_glGetShaderiv (fst (fst c1))])%list)
    by (rewrite E1 at 1; reflexivity).
  rewrite L1. cbn [after_call].
  set (c2 := CompileShader drv (fragment_shader_src_ this) FRAGMENT
               (Some "") (snd c1)).
  destruct (N.eqb_spec (fst (fst c2)) 0) as [_ | N2];
    [cbn [fst]; discriminate |].
  pose proof (CompileShader_nonzero (fragment_shader_src_ this) FRAGMENT
                (Some "") (snd c1) N2) as E2.
  fold c2 in E2. cbv zeta in E2.
  assert (L2 : snd (fst c2) = Some "") by (rewrite E2; reflexivity).
  assert (T2 : snd c2
               = (snd c1 ++ [Ev_glCreateShader GL_FRAGMENT_SHADER (fst (fst c2));
                             Ev_glShaderSource (fst (fst c2))
                               (fragment_shader_src_ this);
                             Ev_glCompileShader (fst (fst c2));
                             Ev_glGetShaderiv (fst (fst c2))])%list)
    by (rewrite E2 at 1; reflexivity).
  rewrite L2. cbn [after_call].
  set (c3 := CreateShaderProgram drv (fst (fst c1)) (fst (fst c2))
               (Some "") (snd c2)).
  destruct (N.eqb_spec (fst (fst c3)) 0) as [_ | N3];
    [cbn [fst]; discriminate |].
  pose proof (CreateShaderProgram_nonzero (fst (fst c1)) (fst (fst c2))
                (Some "") (snd c2) N3) as E3.
  fold c3 in E3. cbv zeta in E3.
  assert (T3 : snd c3
               = (snd c2 ++ [Ev_glCreateProgram (fst (fst c3));
                             Ev_glAttachShader (fst (fst c3)) (fst (fst c1));
                             Ev_glAttachShader (fst (fst c3)) (fst (fst c2));
                             Ev_glLinkProgram (fst (fst c3));
                             Ev_glGetProgramiv (fst (fst c3))])%list)
    by (rewrite E3 at 1; reflexivity).
  intros _.
  exists (fst (fst c1)), (fst (fst c2)), (fst (fst c3)).
  split; [exact N1 | split; [exact N2 | split; [exact N3 |]]].
  rewrite T3, T2, T1. flatten.
  unfold set_created_, set_shader_program_id_, set_fragment_shader_,
    set_vertex_shader_.
  cbn [vertex_shader_src_ fragment_shader_src_ vertex_shader_
       fragment_shader_ shader_program_id_ created_].
  reflexivity.
Qed.

(** *** What [Create] depends on *)

(** X19.  The pointer passed to [Create] only decides whether the log is copied:
    with [nullptr] or with a string, [Create] returns the same [bool], leaves
    the same object and makes the same calls. *)
Theorem Create_ignores_the_log_pointer :
  forall (this : ShaderProgram) (log log' : option string) (tr : Trace),
    fst (fst (fst (Create drv log this tr)))
    = fst (fst (fst (Create drv log' this tr))) /\
    snd (fst (Create drv log this tr)) = snd (fst (Create drv log' this tr)) /\
    snd (Create drv log this tr) = snd (Create drv log' this tr) /\
    (log = None -> snd (fst (fst (Create drv log this tr))) = None).
Proof.
  intros this log log' tr.
  destruct (created_ this) eqn:Hc.
  - rewrite !Create_when_created by exact Hc. cbn [fst snd].
    repeat split. intros H; exact H.
  - rewrite !Create_unfold by exact Hc. cbv zeta.
    repeat match goal with
      | |- context [if ?c then _ else _] => destruct c
      end; cbn [fst snd]; repeat split; intros ->; reflexivity.
Qed.

(** X20.  On an object that is not created, the outcome of [Create] is decided by
    the two sources alone: shader and program names left over from an
    earlier, failed [Create] play no part.  Two such objects with the same
    sources get the same [bool], the same log and the same calls, and when
    [Create] succeeds they end up equal. *)
Theorem Create_depends_on_sources_only :
  forall (this other : ShaderProgram) (log : option string) (tr : Trace),
    created_ this = false -> created_ other = false ->
    vertex_shader_src_ this = vertex_shader_src_ other ->
    fragment_shader_src_ this = fragment_shader_src_ other ->
    fst (fst (Create drv log this tr)) = fst (fst (Create drv log other tr)) /\
    snd (Create drv log this tr) = snd (Create drv log other tr) /\
    (fst (fst (fst (Create drv log this tr))) = true ->
     snd (fst (Create drv log this tr)) = snd (fst (Create drv log other tr))).
Proof.
  intros this other log tr Hc Hc' Hv Hf.
  rewrite !Create_unfold by assumption. cbv zeta.
  rewrite <- Hv, <- Hf.
  repeat match goal with
    | |- context [if ?c then _ else _] => destruct c
    end; cbn [fst snd]; repeat split; try discriminate.
  intros _.
  unfold set_created_, set_shader_program_id_, set_fragment_shader_,
    set_vertex_shader_.
  cbn [vertex_shader_src_ fragment_shader_src_ vertex_shader_
       fragment_shader_ shader_program_id_ created_].
  rewrite Hv, Hf. reflexivity.
Qed.

(** X21.  [Create] returns [false] on an object that is not created exactly when
    one of its three stages fails. *)
Theorem Create_fails_iff_a_stage_fails :
  forall (this : ShaderProgram) (log : option string) (tr : Trace),
    created_ this = false ->
    (fst (fst (fst (Create drv log this tr))) = false <->
     exists this' il tr', StageFailure drv this tr this' il tr').
Proof.
  intros this log tr Hc. split.
  - intros Hf.
    destruct (Create_cases drv log this tr Hc)
      as [(this' & il & tr' & HF & _) | (this3 & tr3 & _ & _ & E)].
    + exists this', il, tr'. exact HF.
    + rewrite E in Hf. discriminate Hf.
  - intros (this' & il & tr' & HF).
    rewrite (Create_when_stage_fails drv log this this' tr tr' il Hc HF).
    reflexivity.
Qed.

(** *** Program objects *)

Lemma programs_deleted_app (a b : list Call) :
  programs_deleted (a ++ b) = (programs_deleted a ++ programs_deleted b)%list.
Proof.
  induction a as [|c a IH]; [reflexivity |].
  destruct c; cbn [app programs_deleted]; rewrite IH; reflexivity.
Qed.

Lemma programs_used_app (a b : list Call) :
  programs_used (a ++ b) = (programs_used a ++ programs_used b)%list.
Proof.
  induction a as [|c a IH]; [reflexivity |].
  destruct c; cbn [app programs_used]; rewrite IH; reflexivity.
Qed.

Lemma programs_created_app (a b : list Call) :
  programs_created (a ++ b) = (programs_created a ++ programs_created b)%list.
Proof.
  induction a as [|c a IH]; [reflexivity |].
  destruct c; cbn [app programs_created]; rewrite IH; reflexivity.
Qed.

Lemma CompileShader_programs (src : string) (ty : ShaderType)
  (log : option string) (tr : Trace) :
  exists calls,
    snd (CompileShader drv src ty log tr) = (tr ++ calls)%list /\
    programs_created calls = [] /\
    programs_deleted calls = [] /\
    programs_used calls = [].
Proof.
  unfold CompileShader.
  destruct ty; gl_cbv;
    match goal with
    | |- context [if ?c then _ else _] => destruct c
    end;
    try destruct log; gl_cbv;
    eexists; (split; [flatten; reflexivity |]); repeat split.
Qed.

Lemma CreateShaderProgram_programs (v f : GLuint) (log : option string)
  (tr : Trace) :
  exists calls,
    snd (CreateShaderProgram drv v f log tr) = (tr ++ calls)%list /\
    programs_created calls = [create_program drv tr] /\
    programs_deleted calls = [] /\
    programs_used calls = [] /\
    (fst (fst (CreateShaderProgram drv v f log tr)) = 0%N \/
     fst (fst (CreateShaderProgram drv v f log tr)) = create_program drv tr).
Proof.
  unfold CreateShaderProgram. gl_cbv.
  match goal with
  | |- context [if ?c then _ else _] => destruct c
  end;
    try destruct log; gl_cbv;
    eexists; (split; [flatten; reflexivity |]);
    (split; [reflexivity |]); (split; [reflexivity |]);
    (split; [reflexivity |]);
    first [left; reflexivity | right; reflexivity].
Qed.

(** X22.  [Create] never calls [glDeleteProgram] or [glUseProgram], and creates at
    most one program. *)
Theorem Create_never_deletes_or_uses_a_program :
  forall (this : ShaderProgram) (log : option string) (tr : Trace),
    exists calls,
      snd (Create drv log this tr) = (tr ++ calls)%list /\
      programs_deleted calls = [] /\
      programs_used calls = [] /\
      (List.length (programs_created calls) <= 1)%nat.
Proof.
  intros this log tr.
  destruct (created_ this) eqn:Hc.
  { rewrite Create_when_created by exact Hc. exists []. cbn [snd].
    rewrite app_nil_r. repeat split. cbn. lia. }
  rewrite Create_unfold by exact Hc. cbv zeta.
  set (c1 := CompileShader drv (vertex_shader_src_ this) VERTEX (Some "") tr).
  destruct (CompileShader_programs (vertex_shader_src_ this) VERTEX
              (Some "") tr) as (k1 & T1 & A1 & B1 & C1).
  fold c1 in T1.
  destruct (fst (fst c1) =? 0)%N.
  { exists k1. cbn [snd]. rewrite A1. repeat split; try assumption. cbn; lia. }
  match goal with
  | |- context [CompileShader drv ?s FRAGMENT ?l (snd c1)] =>
      set (c2 := CompileShader drv s FRAGMENT l (snd c1));
      destruct (CompileShader_programs s FRAGMENT l (snd c1))
        as (k2 & T2 & A2 & B2 & C2); fold c2 in T2
  end.
  destruct (fst (fst c2) =? 0)%N.
  { exists (k1 ++ k2)%list. cbn [snd].
    rewrite T2, T1, app_assoc, programs_deleted_app, programs_used_app,
      programs_created_app, A1, A2, B1, B2, C1, C2.
    repeat split. cbn; lia. }
  match goal with
  | |- context [CreateShaderProgram drv ?a ?b ?l (snd c2)] =>
      set (c3 := CreateShaderProgram drv a b l (snd c2));
      destruct (CreateShaderProgram_programs a b l (snd c2))
        as (k3 & T3 & A3 & B3 & C3 & _); fold c3 in T3
  end.
  exists (k1 ++ k2 ++ k3 ++ [Ev_glDeleteShader (fst (fst c1));
                             Ev_glDeleteShader (fst (fst c2))])%list.
  assert (E : (snd c3 ++ [Ev_glDeleteShader (fst (fst c1));
                          Ev_glDeleteShader (fst (fst c2))])%list
              = (tr ++ k1 ++ k2 ++ k3
                    ++ [Ev_glDeleteShader (fst (fst c1));
                        Ev_glDeleteShader (fst (fst c2))])%list).
  { rewrite T3, T2, T1. rewrite <- !app_assoc. reflexivity. }
  destruct (fst (fst c3) =? 0)%N; cbn [snd]; rewrite E;
    rewrite !programs_deleted_app, !programs_used_app, !programs_created_app,
      A1, A2, A3, B1, B2, B3, C1, C2, C3;
    repeat split; cbn; lia.
Qed.

(** X23.  When the link stage fails, the program object [glCreateProgram] handed
    out is abandoned: [Create] does not delete it, the object's handle is
    zero, and the destructor makes no call at all. *)
Theorem Create_link_failure_abandons_the_program :
  forall (this this1 this2 this3 : ShaderProgram) (log : option string)
         (tr tr1 tr2 tr3 : Trace) (p1 p2 p3 : option string),
    created_ this = false ->
    BuildVertexShader drv (Some "") this tr = (true, p1, this1, tr1) ->
    BuildFragmentShader drv (Some (after_call "" p1)) this1 tr1
      = (true, p2, this2, tr2) ->
    LinkProgram drv (Some (after_call (after_call "" p1) p2)) this2 tr2
      = (false, p3, this3, tr3) ->
    let r := Create drv log this tr in
    exists calls,
      snd r = (tr ++ calls)%list /\
      programs_created calls = [create_program drv tr2] /\
      programs_deleted calls = [] /\
      shader_program_id (snd (fst r)) = 0%N /\
      Destroy (snd (fst r)) (snd r) = (tt, snd r).
Proof.
  intros this this1 this2 this3 log tr tr1 tr2 tr3 p1 p2 p3 Hc E1 E2 E3 r.
  assert (HF : StageFailure drv this tr this3
                 (after_call (after_call (after_call "" p1) p2) p3) tr3)
    by (eapply link_stage_fails; eassumption).
  subst r. rewrite (Create_when_stage_fails drv log _ _ _ _ _ Hc HF).
  cbn [fst snd].
  pose proof (BuildVertexShader_frame drv (Some "") this tr) as (_ & Hc1 & _).
  pose proof (BuildFragmentShader_frame drv (Some (after_call "" p1)) this1 tr1)
    as (_ & Hc2 & _).
  pose proof (LinkProgram_frame drv (Some (after_call (after_call "" p1) p2))
                this2 tr2) as (Hok & Hc3).
  rewrite E1 in Hc1. rewrite E2 in Hc2. rewrite E3 in Hok, Hc3.
  cbn [fst snd] in *.
  assert (Hid : shader_program_id_ this3 = 0%N).
  { destruct (N.eqb_spec (shader_program_id_ this3) 0) as [Z | _];
      [exact Z | discriminate Hok]. }
  assert (Hcr : created_ this3 = false) by congruence.
  destruct (BuildVertexShader_calls drv (Some "") this tr)
    as (h1 & k1 & T1 & _).
  destruct (BuildFragmentShader_calls drv (Some (after_call "" p1)) this1 tr1)
    as (h2 & k2 & T2 & _).
  rewrite E1 in T1. rewrite E2 in T2. cbn [fst snd] in *.
  assert (P1 : programs_created k1 = [] /\ programs_deleted k1 = []).
  { destruct (CompileShader_programs (vertex_shader_src_ this) VERTEX
                (Some "") tr) as (k & Tk & Ak & Bk & _).
    assert (Ek : snd (CompileShader drv (vertex_shader_src_ this) VERTEX
                        (Some "") tr) = tr1)
      by (change tr1 with (snd (true, p1, this1, tr1)); rewrite <- E1;
          reflexivity).
    rewrite Ek, T1 in Tk. apply app_inv_head in Tk. subst k. split; assumption. }
  assert (P2 : programs_created k2 = [] /\ programs_deleted k2 = []).
  { destruct (CompileShader_programs (fragment_shader_src_ this1) FRAGMENT
                (Some (after_call "" p1)) tr1) as (k & Tk & Ak & Bk & _).
    assert (Ek : snd (CompileShader drv (fragment_shader_src_ this1) FRAGMENT
                        (Some (after_call "" p1)) tr1) = tr2)
      by (change tr2 with (snd (true, p2, this2, tr2)); rewrite <- E2;
          reflexivity).
    rewrite Ek, T2 in Tk. apply app_inv_head in Tk. subst k. split; assumption. }
  destruct (CreateShaderProgram_programs (vertex_shader_ this2)
              (fragment_shader_ this2)
              (Some (after_call (after_call "" p1) p2)) tr2)
    as (k3 & T3 & A3 & B3 & _).
  assert (E3' : tr3
                = (snd (CreateShaderProgram drv (vertex_shader_ this2)
                          (fragment_shader_ this2)
                          (Some (after_call (after_call "" p1) p2)) tr2)
                     ++ [Ev_glDeleteShader (vertex_shader_ this2);
                         Ev_glDeleteShader (fragment_shader_ this2)])%list).
  { change tr3 with (snd (false, p3, this3, tr3)). rewrite <- E3.
    unfold LinkProgram, ReleaseShaderResources, glDeleteShader, emit, bind, ret.
    cbn [fst snd set_shader_program_id_ vertex_shader_ fragment_shader_].
    flatten. reflexivity. }
  exists (k1 ++ k2 ++ k3 ++ [Ev_glDeleteShader (vertex_shader_ this2);
                             Ev_glDeleteShader (fragment_shader_ this2)])%list.
  destruct P1 as [A1 B1]. destruct P2 as [A2 B2].
  split; [| split; [| split; [| split]]].
  - rewrite E3', T3, T2, T1. rewrite <- !app_assoc. reflexivity.
  - rewrite !programs_created_app, A1, A2, A3. reflexivity.
  - rewrite !programs_deleted_app, B1, B2, B3. reflexivity.
  - exact Hid.
  - unfold Destroy. rewrite Hcr. reflexivity.
Qed.

(** *** The size of the reported log *)

Lemma CompileShader_failure_log_size (src : string) (ty : ShaderType)
  (buf : string) (tr : Trace) :
  rejects_name_zero drv ->
  fst (fst (CompileShader drv src ty (Some buf) tr)) = 0%N ->
  exists s,
    snd (fst (CompileShader drv src ty (Some buf) tr)) = Some s /\
    String.length s = kNumCharsInfoLog.
Proof.
  intros Hz. unfold CompileShader.
  destruct ty; gl_cbv;
    match goal with
    | |- context [if ?c then _ else _] => destruct c eqn:Ec
    end; gl_cbv; intros H.
  all: try (eexists; split; [reflexivity |];
            match goal with
            | |- context [match ?o with Some _ => _ | None => _ end] =>
                destruct o
            end;
            rewrite ?write_c_str_length, resize_length; reflexivity).
  all: exfalso; rewrite H in Ec;
    match type of Ec with
    | context [compile_status drv ?t 0%N] =>
        rewrite (proj1 (Hz t)) in Ec
    end; discriminate Ec.
Qed.

Lemma CreateShaderProgram_failure_log_size (v f : GLuint) (buf : string)
  (tr : Trace) :
  rejects_name_zero drv ->
  fst (fst (CreateShaderProgram drv v f (Some buf) tr)) = 0%N ->
  exists s,
    snd (fst (CreateShaderProgram drv v f (Some buf) tr)) = Some s /\
    String.length s = kNumCharsInfoLog.
Proof.
  intros Hz. unfold CreateShaderProgram. gl_cbv.
  match goal with
  | |- context [if ?c then _ else _] => destruct c eqn:Ec
  end; gl_cbv; intros H.
  - eexists; split; [reflexivity |].
    match goal with
    | |- context [match ?o with Some _ => _ | None => _ end] => destruct o
    end;
      rewrite ?write_c_str_length, resize_length; reflexivity.
  - exfalso. rewrite H in Ec.
    match type of Ec with
    | context [link_status drv ?t 0%N] => rewrite (proj2 (Hz t)) in Ec
    end. discriminate Ec.
Qed.

(** X24.  With a driver that rejects the name zero, whenever [Create] fails on an
    object that is not created the caller's string ends up with exactly
    [kNumCharsInfoLog] (512) characters, however short or long the driver's
    message is. *)
Theorem Create_failure_log_has_512_characters :
  forall (this : ShaderProgram) (caller : string) (tr : Trace),
    rejects_name_zero drv ->
    created_ this = false ->
    fst (fst (fst (Create drv (Some caller) this tr))) = false ->
    exists s,
      snd (fst (fst (Create drv (Some caller) this tr))) = Some s /\
      String.length s = 512%nat.
Proof.
  intros this caller tr Hz Hc.
  rewrite Create_unfold by exact Hc. cbv zeta.
  set (c1 := CompileShader drv (vertex_shader_src_ this) VERTEX (Some "") tr).
  destruct (N.eqb_spec (fst (fst c1)) 0) as [Z1 | N1].
  { intros _. cbn [fst snd assign_if_non_null].
    destruct (CompileShader_failure_log_size (vertex_shader_src_ this) VERTEX
                "" tr Hz Z1) as (s & Es & Ls).
    fold c1 in Es. rewrite Es. cbn [after_call]. exists s. split;
      [reflexivity | exact Ls]. }
  pose proof (CompileShader_nonzero (vertex_shader_src_ this) VERTEX
                (Some "") tr N1) as E1.
  fold c1 in E1. cbv zeta in E1.
  assert (L1 : snd (fst c1) = Some "") by (rewrite E1; reflexivity).
  rewrite L1. cbn [after_call].
  set (c2 := CompileShader drv (fragment_shader_src_ this) FRAGMENT
               (Some "") (snd c1)).
  destruct (N.eqb_spec (fst (fst c2)) 0) as [Z2 | N2].
  { intros _. cbn [fst snd assign_if_non_null].
    destruct (CompileShader_failure_log_size (fragment_shader_src_ this)
                FRAGMENT "" (snd c1) Hz Z2) as (s & Es & Ls).
    fold c2 in Es. rewrite Es. cbn [after_call]. exists s. split;
      [reflexivity | exact Ls]. }
  pose proof (CompileShader_nonzero (fragment_shader_src_ this) FRAGMENT
                (Some "") (snd c1) N2) as E2.
  fold c2 in E2. cbv zeta in E2.
  assert (L2 : snd (fst c2) = Some "") by (rewrite E2; reflexivity).
  rewrite L2. cbn [after_call].
  set (c3 := CreateShaderProgram drv (fst (fst c1)) (fst (fst c2))
               (Some "") (snd c2)).
  destruct (N.eqb_spec (fst (fst c3)) 0) as [Z3 | N3].
  { intros _. cbn [fst snd assign_if_non_null].
    destruct (CreateShaderProgram_failure_log_size (fst (fst c1))
                (fst (fst c2)) "" (snd c2) Hz Z3) as (s & Es & Ls).
    fold c3 in Es. rewrite Es. cbn [after_call]. exists s. split;
      [reflexivity | exact Ls]. }
  cbn [fst]. discriminate.
Qed.

(** *** [Create] followed by [Use] and the destructor *)

(** X25.  After any history, when [Create] returns [true] the handle is not zero,
    a following [Use] activates exactly that handle and returns [true], a
    following destructor deletes exactly that handle, and a second [Create]
    makes no call. *)
Theorem Create_then_Use_then_destroy :
  forall (succeeded : bool) (this : ShaderProgram) (log : option string)
         (tr : Trace),
    Reach drv fs succeeded this tr ->
    fst (fst (fst (Create drv log this tr))) = true ->
    let this' := snd (fst (Create drv log this tr)) in
    let tr' := snd (Create drv log this tr) in
    shader_program_id this' <> 0%N /\
    Use this' tr' = (true, (tr' ++ [Ev_glUseProgram (shader_program_id this')])%list) /\
    Destroy this' tr'
    = (tt, (tr' ++ [Ev_glDeleteProgram (shader_program_id this')])%list) /\
    snd (Create drv log this' tr') = tr'.
Proof.
  intros succeeded this log tr HR Hok this' tr'.
  destruct (Reach_Inv drv fs succeeded this tr HR) as [_ HI].
  destruct (Create_preserves_Inv drv log this tr HI) as [HI' Hc'].
  fold this' in HI', Hc'. rewrite Hok, orb_true_r in Hc'.
  unfold Inv in HI'. rewrite Hc' in HI'.
  assert (Hnz : shader_program_id_ this' <> 0%N).
  { destruct (N.eqb_spec (shader_program_id_ this') 0) as [Z | NZ];
      [discriminate HI' | exact NZ]. }
  split; [exact Hnz | split; [| split]].
  - unfold Use. rewrite Hc'. reflexivity.
  - unfold Destroy. rewrite Hc'. reflexivity.
  - rewrite Create_when_created by exact Hc'. reflexivity.
Qed.

End ShaderLaws.

(* ------------------------------------------------------------------ *)
(** ** main.cc                                                         *)
(* ------------------------------------------------------------------ *)

Section MainLaws.
Import GL StdString Shader.
Local Open Scope string_scope.

Variable drv : Driver.
Variable fs : string -> option string.

(** X28.  The scene driver's [CreateShaderProgram] returns [false] for [nullptr]
    without touching OpenGL.  For an object after any history it loads the
    two sources of main.cc, calls [Create] once, and returns exactly what
    [Create] returned; it prints nothing when that is [true], and both error
    messages (the log on [std::cout], then the fixed text on [std::cerr])
    when it is [false]. *)
Theorem main_CreateShaderProgram_reports :
  forall (succeeded : bool) (this : ShaderProgram) (tr : Trace),
    Reach drv fs succeeded this tr ->
    let loaded :=
      snd (LoadFragmentShaderFromString Main.fragment_shader_src
             (snd (LoadVertexShaderFromString Main.vertex_shader_src this))) in
    let c := Create drv (Some "") loaded tr in
    let r := Main.CreateShaderProgram drv (Some this) tr in
    fst (fst (fst r)) = fst (fst (fst c)) /\
    snd (fst (fst r)) = Some (snd (fst c)) /\
    snd r = snd c /\
    snd (fst r)
    = (if fst (fst (fst c)) then []
       else [Main.Cout ("ERROR: " ++ after_call "" (snd (fst (fst c)))
                          ++ Main.newline);
             Main.Cerr ("ERROR: Could not create a shader program."
                          ++ Main.newline)]) /\
    Main.CreateShaderProgram drv None tr = (false, None, [], tr).
Proof.
  intros succeeded this tr HR loaded c r.
  destruct (Reach_Inv drv fs succeeded this tr HR) as [_ HI].
  assert (HIl : Inv loaded) by exact HI.
  destruct (Create_preserves_Inv drv (Some "") loaded tr HIl) as [HI' Hc'].
  fold c in HI', Hc'.
  assert (Hid : (shader_program_id (snd (fst c)) =? 0)%N
                = negb (fst (fst (fst c)))).
  { unfold Inv in HI'. unfold shader_program_id.
    destruct (created_ loaded) eqn:Hcl.
    - subst c. rewrite Create_when_created in * by exact Hcl.
      cbn [fst snd] in *. rewrite Hcl in HI'.
      destruct (shader_program_id_ loaded =? 0)%N;
        [discriminate HI' | reflexivity].
    - cbn [orb] in Hc'. rewrite Hc' in HI'.
      destruct (shader_program_id_ (snd (fst c)) =? 0)%N;
        cbn [negb] in HI'; rewrite HI'; reflexivity. }
  subst r. unfold Main.CreateShaderProgram, bind, ret.
  fold loaded. fold c. rewrite Hid.
  destruct (fst (fst (fst c))); cbn [negb fst snd app]; repeat split.
Qed.

End MainLaws.

(* ------------------------------------------------------------------ *)
(** ** Concrete runs of the further properties                         *)
(* ------------------------------------------------------------------ *)

Section ShaderLawRuns.
Import GL StdString Shader.
Local Open Scope string_scope.

(** A readable file replaces the source; a missing file leaves it alone. *)
Example LoadVertexShaderFromFile_runs :
  LoadVertexShaderFromFile (one_file "shader.vert" vertex_shader_src)
    "shader.vert" invalid_program
  = (true, set_vertex_shader_src_ vertex_shader_src invalid_program) /\
  LoadVertexShaderFromFile (one_file "shader.vert" vertex_shader_src)
    "missing.vert" invalid_program
  = (false, invalid_program).
Proof. vm_compute. split; reflexivity. Qed.

Lemma toy_driver_rejects_name_zero (links : bool) :
  rejects_name_zero (toy_driver links).
Proof. intros tr. split; reflexivity. Qed.

Lemma Create_compiles_the_loaded_source_witness :
  let loaded :=
    snd (LoadVertexShaderFromString vertex_shader_src ShaderProgram_ctor) in
  let r := Create (toy_driver true) None loaded [] in
  (exists h rest,
      snd r = ([] ++ Ev_glCreateShader GL_VERTEX_SHADER h
                  :: Ev_glShaderSource h vertex_shader_src
                  :: Ev_glCompileShader h
                  :: Ev_glGetShaderiv h :: rest)%list) /\
  vertex_shader_src_ (snd (fst r)) = vertex_shader_src /\
  fragment_shader_src_ (snd (fst r)) = fragment_shader_src_ ShaderProgram_ctor.
Proof.
  apply (Create_compiles_the_loaded_source (toy_driver true) ShaderProgram_ctor
           vertex_shader_src None []).
  reflexivity.
Defined.

Lemma Create_success_trace_witness :
  exists v f p : GLuint,
    v <> 0%N /\ f <> 0%N /\ p <> 0%N /\
    Create (toy_driver true) None valid_program []
    = (true, None,
       MkShaderProgram (vertex_shader_src_ valid_program)
         (fragment_shader_src_ valid_program) v f p true,
       ([] ++ [Ev_glCreateShader GL_VERTEX_SHADER v;
               Ev_glShaderSource v (vertex_shader_src_ valid_program);
               Ev_glCompileShader v;
               Ev_glGetShaderiv v;
               Ev_glCreateShader GL_FRAGMENT_SHADER f;
               Ev_glShaderSource f (fragment_shader_src_ valid_program);
               Ev_glCompileShader f;
               Ev_glGetShaderiv f;
               Ev_glCreateProgram p;
               Ev_glAttachShader p v;
               Ev_glAttachShader p f;
               Ev_glLinkProgram p;
               Ev_glGetProgramiv p;
               Ev_glDeleteShader v;
               Ev_glDeleteShader f])%list).
Proof.
  apply (Create_success_trace (toy_driver true) valid_program None []).
  - reflexivity.
  - vm_compute. reflexivity.
Defined.

(** An object with the sources of [valid_program] and names left over from
    an earlier attempt. *)
Lemma Create_depends_on_sources_only_witness :
  let other :=
    MkShaderProgram vertex_shader_src fragment_shader_src 7%N 8%N 0%N false in
  fst (fst (Create (toy_driver true) None valid_program []))
  = fst (fst (Create (toy_driver true) None other [])) /\
  snd (Create (toy_driver true) None valid_program [])
  = snd (Create (toy_driver true) None other []) /\
  (fst (fst (fst (Create (toy_driver true) None valid_program []))) = true ->
   snd (fst (Create (toy_driver true) None valid_program []))
   = snd (fst (Create (toy_driver true) None other []))).
Proof.
  intros other.
  apply (Create_depends_on_sources_only (toy_driver true) valid_program other
           None []); reflexivity.
Defined.

Lemma Create_fails_iff_a_stage_fails_witness :
  fst (fst (fst (Create (toy_driver true) None invalid_program []))) = false <->
  exists this' il tr',
    StageFailure (toy_driver true) invalid_program [] this' il tr'.
Proof.
  apply (Create_fails_iff_a_stage_fails (toy_driver true) invalid_program
           None []).
  reflexivity.
Defined.

Lemma Create_link_failure_abandons_the_program_witness :
  let drv := toy_driver false in
  let r1 := BuildVertexShader drv (Some "") valid_program [] in
  let r2 := BuildFragmentShader drv
              (Some (after_call "" (snd (fst (fst r1)))))
              (snd (fst r1)) (snd r1) in
  let r := Create drv None valid_program [] in
  exists calls,
    snd r = ([] ++ calls)%list /\
    programs_created calls = [create_program drv (snd r2)] /\
    programs_deleted calls = [] /\
    shader_program_id (snd (fst r)) = 0%N /\
    Destroy (snd (fst r)) (snd r) = (tt, snd r).
Proof.
  intros drv r1 r2.
  pose (r3 := LinkProgram drv
                (Some (after_call (after_call "" (snd (fst (fst r1))))
                         (snd (fst (fst r2)))))
                (snd (fst r2)) (snd r2)).
  apply (Create_link_failure_abandons_the_program drv valid_program
           (snd (fst r1)) (snd (fst r2)) (snd (fst r3)) None
           [] (snd r1) (snd r2) (snd r3)
           (snd (fst (fst r1))) (snd (fst (fst r2))) (snd (fst (fst r3)))).
  - reflexivity.
  - vm_compute. reflexivity.
  - vm_compute. reflexivity.
  - vm_compute. reflexivity.
Defined.

Lemma Create_failure_log_has_512_characters_witness :
  exists s,
    snd (fst (fst (Create (toy_driver true) (Some "caller text")
                     invalid_program []))) = Some s /\
    String.length s = 512%nat.
Proof.
  apply (Create_failure_log_has_512_characters (toy_driver true)
           invalid_program "caller text" []).
  - exact (toy_driver_rejects_name_zero true).
  - reflexivity.
  - vm_compute. reflexivity.
Defined.

Lemma Create_then_Use_then_destroy_witness :
  let this' := snd (fst (Create (toy_driver true) None valid_program [])) in
  let tr' := snd (Create (toy_driver true) None valid_program []) in
  shader_program_id this' <> 0%N /\
  Use this' tr'
  = (true, (tr' ++ [Ev_glUseProgram (shader_program_id this')])%list) /\
  Destroy this' tr'
  = (tt, (tr' ++ [Ev_glDeleteProgram (shader_program_id this')])%list) /\
  snd (Create (toy_driver true) None this' tr') = tr'.
Proof.
  apply (Create_then_Use_then_destroy (toy_driver true) no_files false
           valid_program None []).
  - exact (Reach_valid_program (toy_driver true) no_files).
  - vm_compute. reflexivity.
Defined.

Lemma Create_compile_failure_deletes_nothing_witness :
  exists calls,
    snd (Create (toy_driver true) None invalid_program []) = ([] ++ calls)%list /\
    shaders_created calls <> [] /\
    shaders_deleted calls = [].
Proof.
  apply (Create_compile_failure_deletes_nothing (toy_driver true) None
           invalid_program []).
  - reflexivity.
  - left. vm_compute. reflexivity.
Defined.

Lemma Create_link_reached_deletes_all_witness :
  let drv := toy_driver false in
  let r1 := BuildVertexShader drv (Some "") valid_program [] in
  let r2 := BuildFragmentShader drv
              (Some (after_call "" (snd (fst (fst r1)))))
              (snd (fst r1)) (snd r1) in
  exists calls,
    snd (Create drv None valid_program []) = ([] ++ calls)%list /\
    shaders_created calls
    = [vertex_shader_ (snd (fst r2)); fragment_shader_ (snd (fst r2))] /\
    shaders_deleted calls = shaders_created calls.
Proof.
  intros drv r1 r2.
  apply (Create_link_reached_deletes_all drv None valid_program
           (snd (fst r1)) (snd (fst r2)) [] (snd r1) (snd r2)
           (snd (fst (fst r1))) (snd (fst (fst r2)))).
  - reflexivity.
  - vm_compute. reflexivity.
  - vm_compute. reflexivity.
Defined.

Lemma main_CreateShaderProgram_reports_witness :
  let drv := toy_driver true in
  let loaded :=
    snd (LoadFragmentShaderFromString Main.fragment_shader_src
           (snd (LoadVertexShaderFromString Main.vertex_shader_src
                   ShaderProgram_ctor))) in
  let c := Create drv (Some "") loaded [] in
  let r := Main.CreateShaderProgram drv (Some ShaderProgram_ctor) [] in
  fst (fst (fst r)) = fst (fst (fst c)) /\
  snd (fst (fst r)) = Some (snd (fst c)) /\
  snd r = snd c /\
  snd (fst r)
  = (if fst (fst (fst c)) then []
     else [Main.Cout ("ERROR: " ++ after_call "" (snd (fst (fst c)))
                        ++ Main.newline);
           Main.Cerr ("ERROR: Could not create a shader program."
                        ++ Main.newline)]) /\
  Main.CreateShaderProgram drv None [] = (false, None, [], []).
Proof.
  intros drv.
  apply (main_CreateShaderProgram_reports drv no_files false
           ShaderProgram_ctor []).
  exact (Reach_ctor drv no_files []).
Defined.

End ShaderLawRuns.

(* ------------------------------------------------------------------ *)
(** ** The diagnostic a failed [Create] reports                        *)
(* ------------------------------------------------------------------ *)

Section ShaderDiagnostics.
Import GL StdString Shader.
Local Open Scope string_scope.

Variable drv : Driver.
Variable fs : string -> option string.

Ltac gl_cbv' :=
  cbv beta iota zeta delta
    [bind ret emit fst snd
     glCreateShader glShaderSource glCompileShader glGetShaderiv
     glGetShaderInfoLog glDeleteShader glCreateProgram glAttachShader
     glLinkProgram glGetProgramiv glGetProgramInfoLog glDeleteProgram
     glUseProgram].




Lemma BuildVertexShader_eq (log : option string) (this : ShaderProgram)
  (tr : Trace) :
  BuildVertexShader drv log this tr
  = (negb (fst (fst (CompileShader drv (vertex_shader_src_ this) VERTEX log tr))
           =? 0)%N,
     snd (fst (CompileShader drv (vertex_shader_src_ this) VERTEX log tr)),
     set_vertex_shader_
       (fst (fst (CompileShader drv (vertex_shader_src_ this) VERTEX log tr)))
       this,
     snd (CompileShader drv (vertex_shader_src_ this) VERTEX log tr)).
Proof. reflexivity. Qed.







(** *** Shader objects left behind by a failed compilation *)

Lemma Create_first_call (this : ShaderProgram) (log : option string)
  (tr : Trace) :
  created_ this = false ->
  exists rest,
    snd (Create drv log this tr)
    = (tr ++ Ev_glCreateShader GL_VERTEX_SHADER
               (create_shader drv tr GL_VERTEX_SHADER) :: rest)%list.
Proof.
  intros Hc.
  destruct (BuildVertexShader_calls drv (Some "") this tr)
    as (h & c1 & T1 & _).
  assert (F : exists r1,
             snd (BuildVertexShader drv (Some "") this tr)
             = (tr ++ Ev_glCreateShader GL_VERTEX_SHADER
                        (create_shader drv tr GL_VERTEX_SHADER) :: r1)%list).
  { rewrite BuildVertexShader_eq. cbn [snd]. unfold CompileShader. gl_cbv'.
    match goal with
    | |- context [if ?c then _ else _] => destruct c
    end; gl_cbv'; eexists; rewrite <- !app_assoc; cbn [app]; reflexivity. }
  destruct F as (r1 & F).
  destruct (BuildVertexShader drv (Some "") this tr)
    as [[[ok1 p1] this1] tr1] eqn:E1.
  cbn [snd] in F.
  destruct ok1.
  2:{ rewrite (Create_when_stage_fails drv log this this1 tr tr1
                 (after_call "" p1) Hc)
        by (apply vertex_stage_fails; exact E1).
      exists r1. exact F. }
  destruct (BuildFragmentShader_calls drv (Some (after_call "" p1)) this1 tr1)
    as (h2 & c2 & T2 & _).
  destruct (BuildFragmentShader drv (Some (after_call "" p1)) this1 tr1)
    as [[[ok2 p2] this2] tr2] eqn:E2.
  cbn [snd] in T2.
  destruct ok2.
  2:{ rewrite (Create_when_stage_fails drv log this this2 tr tr2
                 (after_call (after_call "" p1) p2) Hc)
        by (eapply fragment_stage_fails; eassumption).
      exists (r1 ++ c2)%list. cbn [snd]. rewrite T2, F.
      rewrite <- app_assoc. reflexivity. }
  destruct (LinkProgram_calls drv (Some (after_call (after_call "" p1) p2))
              this2 tr2) as (c3 & T3 & _).
  destruct (LinkProgram drv (Some (after_call (after_call "" p1) p2)) this2 tr2)
    as [[[ok3 p3] this3] tr3] eqn:E3.
  cbn [snd] in T3.
  exists (r1 ++ c2 ++ c3)%list.
  destruct ok3.
  - rewrite (Create_when_stages_succeed drv log this this1 this2 this3
               tr tr1 tr2 tr3 p1 p2 p3 Hc E1 E2 E3).
    cbn [snd]. rewrite T3, T2, F. rewrite <- !app_assoc. reflexivity.
  - rewrite (Create_when_stage_fails drv log this this3 tr tr3
               (after_call (after_call (after_call "" p1) p2) p3) Hc)
      by (eapply link_stage_fails; eassumption).
    cbn [snd]. rewrite T3, T2, F. rewrite <- !app_assoc. reflexivity.
Qed.

(** X26.  When the driver's [glCreateShader] hands out a vertex shader object
    (a name that is not zero) and then the vertex stage or the fragment stage
    fails, [Create] returns without any [glDeleteShader] call: that shader
    object was created and is never released. *)
Theorem Create_compile_failure_leaks_a_shader_object :
  forall (this : ShaderProgram) (log : option string) (tr : Trace),
    created_ this = false ->
    create_shader drv tr GL_VERTEX_SHADER <> 0%N ->
    fst (fst (fst (BuildVertexShader drv (Some "") this tr))) = false \/
    fst (fst (fst (BuildFragmentShader drv
       (Some (after_call ""
                (snd (fst (fst (BuildVertexShader drv (Some "") this tr))))))
       (snd (fst (BuildVertexShader drv (Some "") this tr)))
       (snd (BuildVertexShader drv (Some "") this tr))))) = false ->
    exists calls,
      snd (Create drv log this tr) = (tr ++ calls)%list /\
      In (create_shader drv tr GL_VERTEX_SHADER) (shaders_created calls) /\
      shaders_deleted calls = [] /\
      fst (fst (fst (Create drv log this tr))) = false.
Proof.
  intros this log tr Hc Hnz Hfail.
  destruct (Create_compile_failure_deletes_nothing drv log this tr Hc Hfail)
    as (calls & T & _ & D).
  destruct (Create_first_call this log tr Hc) as (rest & F).
  exists calls. split; [exact T | split; [| split; [exact D |]]].
  - rewrite T in F. apply app_inv_head in F. rewrite F.
    cbn [shaders_created]. left. reflexivity.
  - destruct (BuildVertexShader drv (Some "") this tr)
      as [[[ok1 p1] this1] tr1] eqn:E1.
    cbn [fst snd] in Hfail.
    destruct ok1.
    + destruct Hfail as [Hf | Hf]; [discriminate Hf |].
      destruct (BuildFragmentShader drv (Some (after_call "" p1)) this1 tr1)
        as [[[ok2 p2] this2] tr2] eqn:E2.
      cbn [fst] in Hf. subst ok2.
      rewrite (Create_when_stage_fails drv log this this2 tr tr2
                 (after_call (after_call "" p1) p2) Hc)
        by (eapply fragment_stage_fails; eassumption).
      reflexivity.
    + rewrite (Create_when_stage_fails drv log this this1 tr tr1
                 (after_call "" p1) Hc)
        by (apply vertex_stage_fails; exact E1).
      reflexivity.
Qed.

End ShaderDiagnostics.

Section ShaderDiagnosticRuns.
Import GL StdString Shader.
Local Open Scope string_scope.


(** The buffer the caller receives for the test-suite's invalid sources
    starts with the driver's message. *)
Example invalid_program_log_text :
  match snd (fst (fst (Create (toy_driver true) (Some "") invalid_program [])))
  with
  | Some il => truncate 27 il = "0:7(1): error: syntax error"
  | None => False
  end.
Proof. vm_compute. reflexivity. Qed.

Lemma Create_compile_failure_leaks_a_shader_object_witness :
  exists calls,
    snd (Create (toy_driver true) None invalid_program []) = ([] ++ calls)%list /\
    In (create_shader (toy_driver true) [] GL_VERTEX_SHADER)
       (shaders_created calls) /\
    shaders_deleted calls = [] /\
    fst (fst (fst (Create (toy_driver true) None invalid_program []))) = false.
Proof.
  apply (Create_compile_failure_leaks_a_shader_object (toy_driver true)
           invalid_program None []).
  - reflexivity.
  - vm_compute. discriminate.
  - left. vm_compute. reflexivity.
Defined.

End ShaderDiagnosticRuns.

(* ------------------------------------------------------------------ *)
(** ** The float code in binary32                                      *)
(* ------------------------------------------------------------------ *)

Section Binary32Facts.
Import Binary32.

Lemma float_eqb_eq (f g : float) : float_eqb f g = true -> f = g.
Proof.
  destruct f as [s | s | | s m e], g as [t | t | | t n k]; cbn [float_eqb];
    try discriminate; try reflexivity.
  - intros H. apply eqb_prop in H. subst. reflexivity.
  - intros H. apply eqb_prop in H. subst. reflexivity.
  - intros H. apply andb_prop in H. destruct H as [H He].
    apply andb_prop in H. destruct H as [Hs Hm].
    apply eqb_prop in Hs. apply Pos.eqb_eq in Hm. apply Z.eqb_eq in He.
    subst. reflexivity.
Qed.

Lemma in_range (lo hi z : Z) : (lo <= z <= hi)%Z -> In z (range lo hi).
Proof.
  intros H. unfold range. apply in_map_iff.
  exists (Z.to_nat (z - lo)). split; [lia |].
  apply in_seq. lia.
Qed.

Lemma in_range_abs (bound z : Z) :
  (Z.abs z <= bound)%Z -> In z (range (- bound) bound).
Proof. intros H. apply in_range. lia. Qed.

Lemma exact_on_sound (op : float -> float -> float) (opZ : Z -> Z -> Z)
  (bound_a bound_b : Z) :
  exact_on op opZ bound_a bound_b = true ->
  forall (a b : Z) (fa fb : float),
    (Z.abs a <= bound_a)%Z -> (Z.abs b <= bound_b)%Z ->
    stands_for a fa -> stands_for b fb ->
    stands_for (opZ a b) (op fa fb).
Proof.
  unfold exact_on, stands_for. intros H a b fa fb Ha Hb Hfa Hfb.
  rewrite forallb_forall in H. specialize (H a (in_range_abs _ _ Ha)).
  rewrite forallb_forall in H. specialize (H b (in_range_abs _ _ Hb)).
  rewrite forallb_forall in H. specialize (H fa Hfa).
  rewrite forallb_forall in H. specialize (H fb Hfb).
  apply existsb_exists in H. destruct H as (g & Hg & E).
  apply float_eqb_eq in E. rewrite E. exact Hg.
Qed.

Lemma mul_table : exact_on mul Z.mul 32 4 = true.
Proof. vm_compute. reflexivity. Qed.


Lemma add_table : exact_on add Z.add 128 256 = true.
Proof. vm_compute. reflexivity. Qed.

Lemma stands_for_of_Z (z : Z) : stands_for z (of_Z z).
Proof.
  unfold stands_for, reps. destruct (Z.eqb_spec z 0) as [-> | _].
  - left. reflexivity.
  - left. reflexivity.
Qed.


(** Products, differences and sums of small integers are computed without
    rounding. *)
Lemma mul_small (a b : Z) (fa fb : float) :
  (Z.abs a <= 32)%Z -> (Z.abs b <= 4)%Z ->
  stands_for a fa -> stands_for b fb -> stands_for (a * b) (mul fa fb).
Proof. apply (exact_on_sound mul Z.mul 32 4 mul_table). Qed.


Lemma add_small (a b : Z) (fa fb : float) :
  (Z.abs a <= 128)%Z -> (Z.abs b <= 256)%Z ->
  stands_for a fa -> stands_for b fb -> stands_for (a + b) (add fa fb).
Proof. apply (exact_on_sound add Z.add 128 256 add_table). Qed.


Lemma dot3_small (u v w a b c : Z) (n x : Vector3f) :
  (Z.abs u <= 32)%Z -> (Z.abs v <= 32)%Z -> (Z.abs w <= 32)%Z ->
  (Z.abs a <= 4)%Z -> (Z.abs b <= 4)%Z -> (Z.abs c <= 4)%Z ->
  stands_for u (x3 n) -> stands_for v (y3 n) -> stands_for w (z3 n) ->
  stands_for a (x3 x) -> stands_for b (y3 x) -> stands_for c (z3 x) ->
  stands_for (u * a + (v * b + w * c)) (dot3 n x).
Proof.
  intros. unfold dot3.
  apply add_small; [nia | nia | |].
  - apply mul_small; assumption.
  - apply add_small; [nia | nia | |]; apply mul_small; assumption.
Qed.




(** With components near the top of the binary32 range the products
    overflow and the cross product holds a NaN. *)
Lemma ComputeCrossProduct_overflows_to_nan :
  let big := of_dyadic 1 100 in
  let x := Vec3 big zero zero in
  let y := Vec3 zero big zero in
  ComputeCrossProduct x y = Vec3 zero zero (S754_infinity false) /\
  ComputeDotProduct (ComputeCrossProduct x y) x = S754_nan.
Proof. vm_compute. split; reflexivity. Qed.

End Binary32Facts.

Section Binary32CameraFacts.
Import Binary32.
Local Open Scope R_scope.








(** A field of view below half a unit in the last place of [kHalfPi] is
    absorbed by the subtraction: entry [(1,1)] is the tangent of [kHalfPi]
    itself, the same for [fov = 2^-30] and [fov = 2^-40]. *)
Lemma small_field_of_view_is_absorbed :
  forall (tanf : float -> float) (aspect near far : float),
    y4 (r4_1 (ComputePerspectiveProjectionMatrix tanf (of_dyadic 1 (-30))
                aspect near far)) = tanf kHalfPi /\
    y4 (r4_1 (ComputePerspectiveProjectionMatrix tanf (of_dyadic 1 (-40))
                aspect near far)) = tanf kHalfPi.
Proof.
  intros tanf aspect near far.
  unfold ComputePerspectiveProjectionMatrix, ComputeCotangent.
  cbn [r4_1 y4]. split; f_equal; vm_compute; reflexivity.
Qed.

End Binary32CameraFacts.

(* ------------------------------------------------------------------------- *)
(** ** assignment.cc in binary32: sums and dot products *)
(* ------------------------------------------------------------------------- *)

Section Binary32AssignmentLaws.
Import Binary32.


Lemma binary32_mul_comm (x y : float) : mul x y = mul y x.
Proof.
  unfold mul.
  destruct x as [sx | sx | | sx mx ex], y as [sy | sy | | sy my ey];
    cbn [SFmul]; try reflexivity;
    try (rewrite (xorb_comm sy sx); reflexivity).
  rewrite (xorb_comm sy sx), (Pos.mul_comm my mx), (Z.add_comm ey ex).
  reflexivity.
Qed.


(** X4.  In binary32 [ComputeDotProduct] is symmetric on all inputs,
    infinities and NaN included; on vectors with integer components, of
    magnitude at most 32 in the first and at most 4 in the second, it is
    the integer dot product, without rounding. *)
Theorem ComputeDotProduct_binary32 :
  forall (x y : Vector3f) (a b c d e f : Z),
    (Z.abs a <= 32)%Z -> (Z.abs b <= 32)%Z -> (Z.abs c <= 32)%Z ->
    (Z.abs d <= 4)%Z -> (Z.abs e <= 4)%Z -> (Z.abs f <= 4)%Z ->
    ComputeDotProduct x y = ComputeDotProduct y x /\
    stands_for (a * d + (b * e + c * f))
      (ComputeDotProduct (vector_of_Z a b c) (vector_of_Z d e f)).
Proof.
  intros x y a b c d e f Ha Hb Hc Hd He Hf. split.
  - unfold ComputeDotProduct, dot3.
    rewrite (binary32_mul_comm (x3 x)), (binary32_mul_comm (y3 x)),
      (binary32_mul_comm (z3 x)).
    reflexivity.
  - unfold ComputeDotProduct.
    apply dot3_small; try assumption; apply stands_for_of_Z.
Qed.

Lemma ComputeDotProduct_binary32_witness :
  ComputeDotProduct (vector_of_Z 1 1 1)
    (Vec3 (ratio 1 10) (ratio 2 10) (ratio 3 10))
  = ComputeDotProduct (Vec3 (ratio 1 10) (ratio 2 10) (ratio 3 10))
      (vector_of_Z 1 1 1) /\
  stands_for (30 * 4 + (-7 * 2 + 5 * -3))
    (ComputeDotProduct (vector_of_Z 30 (-7) 5) (vector_of_Z 4 2 (-3))).
Proof.
  apply (ComputeDotProduct_binary32 (vector_of_Z 1 1 1)
           (Vec3 (ratio 1 10) (ratio 2 10) (ratio 3 10)) 30 (-7) 5 4 2 (-3));
    vm_compute; discriminate.
Defined.

End Binary32AssignmentLaws.
